(** * IoT device metrics reporter: the collector ([server/app.py]) and
      the agent ([agent/agent.py]) as Rocq functions, and the properties
      of the specification proved about them. *)

From Stdlib Require Import ZArith Lia List Ascii String DecimalString SpecFloat.
From Stdlib Require DecimalZ.
From stdpp Require Import gmap strings list sorting.
Import ListNotations.

Local Open Scope Z_scope.

(** ** The fragment of Python both programs rely on *)

Module Py.

(** Exceptions are distinguished by class only: the source never looks at
    their message. *)
Inductive exn : Type :=
| TypeError | ValueError | KeyError | IndexError | AttributeError
| OverflowError | ZeroDivisionError | OSError | URLError.

(** The outcome of evaluating an expression that may raise. *)
Inductive result (A : Type) : Type :=
| Ok (a : A)
| Raise (e : exn).
Arguments Ok {A} a.
Arguments Raise {A} e.

Definition bind {A B} (r : result A) (k : A -> result B) : result B :=
  match r with
  | Ok a => k a
  | Raise e => Raise e
  end.

(** [try: return r / except Exception: return d] *)
Definition try_except {A} (r : result A) (d : A) : A :=
  match r with
  | Ok a => a
  | Raise _ => d
  end.

(** *** Text

    A [str] is modelled by its UTF-8 bytes.  Equality, ordering, substring
    search and concatenation agree with Python's on code points.  The
    operations that classify characters (white space, digits, printable
    characters) treat the ASCII range only. *)

Definition code (c : ascii) : Z := Z.of_N (N_of_ascii c).

(** [f"{n}"] and [str(n)] for an [int]. *)
Definition str_of_int (n : Z) : string :=
  NilZero.string_of_int (Z.to_int n).

(** [str.isspace] on one character: TAB, LF, VT, FF, CR, FS, GS, RS, US
    and the space. *)
Definition is_space (c : ascii) : bool :=
  let n := code c in
  ((9 <=? n) && (n <=? 13)) || ((28 <=? n) && (n <=? 32)).

Fixpoint lstrip (space : ascii -> bool) (l : list ascii) : list ascii :=
  match l with
  | c :: l' => if space c then lstrip space l' else l
  | [] => []
  end.

Definition strip_chars (space : ascii -> bool) (l : list ascii) : list ascii :=
  rev (lstrip space (rev (lstrip space l))).

(** [s.strip()] *)
Definition strip (s : string) : string :=
  string_of_list_ascii (strip_chars is_space (list_ascii_of_string s)).

Fixpoint split_chars (cur : list ascii) (l : list ascii) : list string :=
  match l with
  | [] =>
      match cur with
      | [] => []
      | _ => [string_of_list_ascii (rev cur)]
      end
  | c :: l' =>
      if is_space c then
        match cur with
        | [] => split_chars [] l'
        | _ => string_of_list_ascii (rev cur) :: split_chars [] l'
        end
      else split_chars (c :: cur) l'
  end.

(** [s.split()]: the maximal runs of characters that are not white space. *)
Definition split (s : string) : list string :=
  split_chars [] (list_ascii_of_string s).

Fixpoint until_char (sep : ascii) (l : list ascii) : list ascii :=
  match l with
  | [] => []
  | c :: l' => if Ascii.eqb c sep then [] else c :: until_char sep l'
  end.

(** [s.split(sep)[0]] for a one-character separator: the text before the
    first separator, all of [s] when there is none. *)
Definition split_first (sep : ascii) (s : string) : string :=
  string_of_list_ascii (until_char sep (list_ascii_of_string s)).

(** [f.readline()] on a freshly opened text file with contents [s]. *)
Fixpoint readline (s : string) : string :=
  match s with
  | EmptyString => EmptyString
  | String c s' =>
      if Ascii.eqb c "010" then String c EmptyString
      else String c (readline s')
  end.

(** [l[i]] for a list and an index that is not negative. *)
Definition index {A} (l : list A) (i : nat) : result A :=
  match nth_error l i with
  | Some a => Ok a
  | None => Raise IndexError
  end.

(** [parts.index(x)] *)
Fixpoint list_index (x : string) (l : list string) : result nat :=
  match l with
  | [] => Raise ValueError
  | y :: l' =>
      if String.eqb y x then Ok O
      else match list_index x l' with
           | Ok i => Ok (S i)
           | Raise e => Raise e
           end
  end.

Definition digit_val (c : ascii) : option Z :=
  let n := code c in
  if (48 <=? n) && (n <=? 57) then Some (n - 48) else None.

(** Decimal digits, single underscores allowed between two digits. *)
Fixpoint parse_digits (acc : Z) (after_digit : bool) (l : list ascii)
  : option Z :=
  match l with
  | [] => if after_digit then Some acc else None
  | c :: l' =>
      if Ascii.eqb c "_" then
        if after_digit then parse_digits acc false l' else None
      else
        match digit_val c with
        | Some d => parse_digits (10 * acc + d) true l'
        | None => None
        end
  end.

(** The white space [int] skips around a literal: TAB, LF, VT, FF, CR and
    the space. *)
Definition is_literal_space (c : ascii) : bool :=
  let n := code c in
  ((9 <=? n) && (n <=? 13)) || (n =? 32).

(** [int(s)] for a [str]: surrounding white space, an optional sign, then
    decimal digits. *)
Definition int_of_str (s : string) : result Z :=
  let body := strip_chars is_literal_space (list_ascii_of_string s) in
  let parsed :=
    match body with
    | c :: rest =>
        if Ascii.eqb c "+" then parse_digits 0 false rest
        else if Ascii.eqb c "-" then option_map Z.opp (parse_digits 0 false rest)
        else parse_digits 0 false body
    | [] => None
    end in
  match parsed with
  | Some n => Ok n
  | None => Raise ValueError
  end.

(** *** Floating point

    A [float] is an IEEE 754 binary64 number; the arithmetic is the one of
    the standard, rounding to nearest, ties to even. *)

Definition float : Type := spec_float.
Definition prec : Z := 53.
Definition emax : Z := 1024.

Definition fsub : float -> float -> float := SFsub prec emax.
Definition fmul : float -> float -> float := SFmul prec emax.

(** The float nearest to [num / den], for positive [num] and [den], with
    the sign [s]; an infinity when the quotient is out of range. *)
Definition float_of_ratio (s : bool) (num den : positive) : float :=
  SFdiv prec emax (S754_finite s num 0) (S754_finite false den 0).

(** The float nearest to an integer (an infinity when out of range). *)
Definition float_of_Z (n : Z) : float :=
  binary_normalize prec emax n 0 false.

(** [a / b] for two [int]s: the correctly rounded quotient. *)
Definition int_truediv (a b : Z) : result float :=
  if b =? 0 then Raise ZeroDivisionError
  else
    let negate := xorb (a <? 0) (b <? 0) in
    match Z.abs a, Z.abs b with
    | Zpos n, Zpos d =>
        match float_of_ratio negate n d with
        | S754_infinity _ => Raise OverflowError
        | q => Ok q
        end
    | _, _ => Ok (S754_zero negate)
    end.

(** [num / den] rounded to the nearest integer, ties to even, for
    [0 <= num] and [0 < den]. *)
Definition round_half_even (num den : Z) : Z :=
  let q := num / den in
  match (2 * (num mod den)) ?= den with
  | Lt => q
  | Eq => if Z.even q then q else q + 1
  | Gt => q + 1
  end.

(** [round(x, ndigits)] for a float and [0 <= ndigits]: the exact value of
    [x] is rounded to [ndigits] decimals, ties to even, and the decimal
    obtained is converted to the nearest float. *)
Definition round (x : float) (ndigits : Z) : float :=
  match x with
  | S754_finite s m e =>
      let scale := 10 ^ ndigits in
      let n :=
        if 0 <=? e then Zpos m * 2 ^ e * scale
        else round_half_even (Zpos m * scale) (2 ^ (- e)) in
      match n with
      | Zpos p => float_of_ratio s p (Z.to_pos scale)
      | _ => S754_zero s
      end
  | _ => x
  end.

(** [int(x)] for a float: truncation towards zero. *)
Definition int_of_float (x : float) : result Z :=
  match x with
  | S754_zero _ => Ok 0
  | S754_infinity _ => Raise OverflowError
  | S754_nan => Raise ValueError
  | S754_finite s m e =>
      let a := if 0 <=? e then Zpos m * 2 ^ e else Zpos m / 2 ^ (- e) in
      Ok (if s then - a else a)
  end.

(** [repr(x)] for a float: the shortest decimal that converts back to [x]
    (the nearer one to [x] when two of that length do, the even one on a
    tie), printed in fixed notation when its decimal point falls within
    [-4 < decpt <= 16] and in exponent notation otherwise. *)

Definition pow10 (k : Z) : Z := 10 ^ k.

Definition ndigits10 (n : Z) : Z := Z.of_nat (String.length (str_of_int n)).

(** The float nearest to [c * 10^k], for [0 < c]. *)
Definition float_of_decimal (c k : Z) : float :=
  if 0 <=? k then float_of_ratio false (Z.to_pos (c * pow10 k)) 1
  else float_of_ratio false (Z.to_pos c) (Z.to_pos (pow10 (- k))).

(** [floor(log10(num / den))] for positive [num] and [den]. *)
Definition log10_floor (num den : Z) : Z :=
  let d := ndigits10 num - ndigits10 den in
  let reaches :=
    if 0 <=? d then den * pow10 d <=? num else den <=? num * pow10 (- d) in
  if reaches then d else d - 1.

(** The candidate with [n] significant digits for [num / den], whose
    decimal exponent is [e10]: [Some (c, k)] stands for [c * 10^k]. *)
Definition candidate (x : float) (num den e10 n : Z) : option (Z * Z) :=
  let k := e10 - n + 1 in
  let num' := if 0 <=? k then num else num * pow10 (- k) in
  let den' := if 0 <=? k then den * pow10 k else den in
  let lo := num' / den' in
  let hi := lo + 1 in
  let ok c := (0 <? c) && SFeqb (float_of_decimal c k) x in
  match ok lo, ok hi with
  | true, false => Some (lo, k)
  | false, true => Some (hi, k)
  | false, false => None
  | true, true =>
      match (2 * num') ?= ((lo + hi) * den') with
      | Lt => Some (lo, k)
      | Gt => Some (hi, k)
      | Eq => Some (if Z.even lo then lo else hi, k)
      end
  end.

Fixpoint shortest (x : float) (num den e10 : Z) (n : Z) (fuel : nat)
  : Z * Z :=
  match fuel with
  | O => (0, 0)
  | S fuel' =>
      match candidate x num den e10 n with
      | Some ck => ck
      | None => shortest x num den e10 (n + 1) fuel'
      end
  end.

Fixpoint drop_zeros (c k : Z) (fuel : nat) : Z * Z :=
  match fuel with
  | O => (c, k)
  | S fuel' =>
      if (c mod 10 =? 0) && negb (c =? 0) then drop_zeros (c / 10) (k + 1) fuel'
      else (c, k)
  end.

Definition zeros (n : Z) : string :=
  string_of_list_ascii (repeat "0"%char (Z.to_nat n)).

Definition format_short (digits : string) (decpt : Z) : string :=
  let n := Z.of_nat (String.length digits) in
  if (decpt <=? -4) || (16 <? decpt) then
    let e := decpt - 1 in
    let mant :=
      match digits with
      | String c EmptyString => digits
      | String c rest => String c ("." +:+ rest)
      | EmptyString => digits
      end in
    let ee := str_of_int (Z.abs e) in
    mant +:+ "e" +:+ (if e <? 0 then "-" else "+")
         +:+ (if Z.abs e <? 10 then "0" else "") +:+ ee
  else if decpt <=? 0 then "0." +:+ zeros (- decpt) +:+ digits
  else if n <=? decpt then digits +:+ zeros (decpt - n) +:+ ".0"
  else
    substring 0 (Z.to_nat decpt) digits +:+ "." +:+
    substring (Z.to_nat decpt) (Z.to_nat (n - decpt)) digits.

Definition repr_float (x : float) : string :=
  match x with
  | S754_nan => "nan"
  | S754_infinity s => if s then "-inf" else "inf"
  | S754_zero s => if s then "-0.0" else "0.0"
  | S754_finite s m e =>
      let ax := binary_round prec emax false m e in
      let num := if 0 <=? e then Zpos m * 2 ^ e else Zpos m in
      let den := if 0 <=? e then 1 else 2 ^ (- e) in
      let '(c, k) := shortest ax num den (log10_floor num den) 1 17 in
      let '(c', k') := drop_zeros c k 17 in
      let digits := str_of_int c' in
      (if s then "-" else "") +:+
      format_short digits (Z.of_nat (String.length digits) + k')
  end.

(** [repr(s)] for a [str]: single quotes unless [s] has a single quote and
    no double quote; the quote, the backslash and the control characters
    are escaped. *)
Definition hex_digit (n : Z) : ascii :=
  ascii_of_N (Z.to_N (if n <? 10 then 48 + n else 87 + n)).

Definition escape_char (quote c : ascii) : string :=
  let n := code c in
  if Ascii.eqb c quote || Ascii.eqb c "\" then String "\" (String c EmptyString)
  else if n =? 9 then "\t"
  else if n =? 10 then "\n"
  else if n =? 13 then "\r"
  else if (n <? 32) || (n =? 127) then
    String "\" (String "x" (String (hex_digit (n / 16))
                             (String (hex_digit (n mod 16)) EmptyString)))
  else String c EmptyString.

Definition has_char (c : ascii) (s : string) : bool :=
  existsb (Ascii.eqb c) (list_ascii_of_string s).

Definition repr_str (s : string) : string :=
  let double : ascii := "034"%char in
  let quote : ascii :=
    if has_char "'" s && negb (has_char double s) then double else "'"%char in
  String quote
    (String.concat "" (map (escape_char quote) (list_ascii_of_string s))
     +:+ String quote EmptyString).

(** *** Values decoded from JSON *)

#[local] Set Warnings "-register-all".
Inductive value : Type :=
| VNone
| VBool (b : bool)
| VInt (n : Z)
| VFloat (x : float)
| VStr (s : string)
| VList (l : list value)
| VDict (d : list (string * value)).

(** A [dict] is the list of its items in insertion order; a key is looked
    up at its first item. *)
Fixpoint dict_lookup (d : list (string * value)) (k : string) : option value :=
  match d with
  | [] => None
  | (k', v) :: d' => if String.eqb k' k then Some v else dict_lookup d' k
  end.

Fixpoint repr (v : value) : string :=
  match v with
  | VNone => "None"
  | VBool b => if b then "True" else "False"
  | VInt n => str_of_int n
  | VFloat x => repr_float x
  | VStr s => repr_str s
  | VList l => "[" +:+ String.concat ", " (map repr l) +:+ "]"
  | VDict d =>
      "{" +:+ String.concat ", "
                (map (fun kv => repr_str (fst kv) +:+ ": " +:+ repr (snd kv)) d)
          +:+ "}"
  end.

(** [str(v)] *)
Definition str (v : value) : string :=
  match v with
  | VStr s => s
  | _ => repr v
  end.

(** [int(v)] *)
Definition int (v : value) : result Z :=
  match v with
  | VBool b => Ok (if b then 1 else 0)
  | VInt n => Ok n
  | VFloat x => int_of_float x
  | VStr s => int_of_str s
  | VNone | VList _ | VDict _ => Raise TypeError
  end.

Fixpoint is_substring (k s : string) : bool :=
  String.prefix k s ||
  match s with
  | EmptyString => false
  | String _ s' => is_substring k s'
  end.

(** [k in v] for a [str] [k]: a key of a dict, an item of a list, a
    substring of a string; the other values are not containers. *)
Definition contains (k : string) (v : value) : result bool :=
  match v with
  | VDict d => Ok (bool_decide (is_Some (dict_lookup d k)))
  | VList l =>
      Ok (existsb (fun x => match x with VStr s => String.eqb s k | _ => false end) l)
  | VStr s => Ok (is_substring k s)
  | VNone | VBool _ | VInt _ | VFloat _ => Raise TypeError
  end.

(** [v[k]] for a [str] [k] *)
Definition getitem (v : value) (k : string) : result value :=
  match v with
  | VDict d =>
      match dict_lookup d k with
      | Some x => Ok x
      | None => Raise KeyError
      end
  | _ => Raise TypeError
  end.

(** [v.get(k, default)] *)
Definition get (v : value) (k : string) (default : value) : result value :=
  match v with
  | VDict d =>
      match dict_lookup d k with
      | Some x => Ok x
      | None => Ok default
      end
  | _ => Raise AttributeError
  end.

End Py.

#[global] Instance result_ret : MRet Py.result := @Py.Ok.
#[global] Instance result_bind : MBind Py.result :=
  fun A B k r => Py.bind r k.

(** ** The collector, [server/app.py] *)

Module Server.

(** One entry of [DEVICES]:
    [{"metrics": payload, "last_seen": ts, "interval": interval}]. *)
Record device_rec : Type := {
  rec_metrics : Py.value;
  rec_last_seen : Z;
  rec_interval : Z
}.

(** [DEVICES], the dict from device id to the latest record. *)
Abbreviation store := (gmap string device_rec).

Definition REPORT_INTERVAL_DEFAULT : Z := 10.

(** [mark_online_state], app.py lines 10-12. *)
Definition mark_online_state (now last_seen interval : Z) : bool :=
  (now - last_seen) <=? (2 * Z.max interval REPORT_INTERVAL_DEFAULT).

(** [human_ago], app.py lines 14-25.  [//] is floor division and [%] the
    matching remainder: [Z.div] and [Z.modulo] for a positive divisor. *)
Definition human_ago (seconds : Z) : string :=
  if seconds <? 60 then Py.str_of_int seconds +:+ "s ago"
  else
    let mins := seconds / 60 in
    if mins <? 60 then Py.str_of_int mins +:+ "m ago"
    else
      let hrs := mins / 60 in
      if hrs <? 24 then
        Py.str_of_int hrs +:+ "h " +:+ Py.str_of_int (mins mod 60) +:+ "m ago"
      else
        let days := hrs / 24 in
        Py.str_of_int days +:+ "d ago".

(** What the handler answers: [200 {"status": "ok"}], [400 {"error": msg}],
    or an exception that leaves the handler (the framework's 500). *)
Inductive response : Type :=
| Accepted
| BadRequest (msg : string)
| Unhandled (e : Py.exn).

(** The schema check, app.py lines 36-38: the first of the keys that is not
    [in payload], if any. *)
Fixpoint first_missing (keys : list string) (payload : Py.value)
  : Py.result (option string) :=
  match keys with
  | [] => Py.Ok None
  | k :: keys' =>
      present ← Py.contains k payload;
      if present : bool then first_missing keys' payload else Py.Ok (Some k)
  end.

Definition REQUIRED : list string := ["device_id"; "ts"; "system"; "network"].

(** Lines 40-44: the key and the record that the assignment to [DEVICES]
    is about to store. *)
Definition coerce (payload : Py.value) : Py.result (string * device_rec) :=
  did ← Py.getitem payload "device_id";
  let device_id := Py.str did in
  tsv ← Py.getitem payload "ts";
  ts ← Py.int tsv;
  iv ← Py.get payload "interval" (Py.VInt REPORT_INTERVAL_DEFAULT);
  interval ← Py.int iv;
  Py.Ok (device_id,
         {| rec_metrics := payload; rec_last_seen := ts; rec_interval := interval |}).

(** [metrics], app.py lines 27-45.  [body] is the outcome of
    [request.get_json(force=True, silent=False)]: the decoded value, or
    [None] when decoding raised. *)
Definition metrics (body : option Py.value) (DEVICES : store)
  : response * store :=
  match body with
  | None => (BadRequest "invalid JSON", DEVICES)
  | Some payload =>
      match first_missing REQUIRED payload with
      | Py.Raise e => (Unhandled e, DEVICES)
      | Py.Ok (Some k) => (BadRequest ("missing field: " +:+ k), DEVICES)
      | Py.Ok None =>
          match coerce payload with
          | Py.Raise e => (Unhandled e, DEVICES)
          | Py.Ok (device_id, rec) => (Accepted, <[device_id := rec]> DEVICES)
          end
      end
  end.

(** One element of [rows]. *)
Record row : Type := {
  row_device_id : string;
  row_online : bool;
  row_last_seen : Z;
  row_last_seen_ago : string;
  row_uptime_s : Py.value;
  row_cpu_pct : Py.value;
  row_mem_pct : Py.value;
  row_disk_pct : Py.value;
  row_loadavg : Py.value;
  row_iface : Py.value;
  row_ip : Py.value;
  row_mac : Py.value;
  row_rx_bytes : Py.value;
  row_tx_bytes : Py.value;
  row_rx_packets : Py.value;
  row_tx_packets : Py.value
}.

(** The value a flattened field takes from a dict: [d.get(k)]. *)
Definition field (d : list (string * Py.value)) (k : string) : Py.value :=
  default Py.VNone (Py.dict_lookup d k).

(** The body of the loop of [build_rows], app.py lines 52-75. *)
Definition build_row (now : Z) (device_id : string) (rec : device_rec)
  : Py.result row :=
  let last_seen := rec_last_seen rec in
  let interval := rec_interval rec in
  let online := mark_online_state now last_seen interval in
  let m := rec_metrics rec in
  sysm ← Py.get m "system" (Py.VDict []);
  netm ← Py.get m "network" (Py.VDict []);
  uptime_s ← Py.get sysm "uptime_s" Py.VNone;
  cpu_pct ← Py.get sysm "cpu_pct" Py.VNone;
  mem_pct ← Py.get sysm "mem_pct" Py.VNone;
  disk_pct ← Py.get sysm "disk_pct" Py.VNone;
  loadavg ← Py.get sysm "loadavg" Py.VNone;
  iface ← Py.get netm "iface" Py.VNone;
  ip ← Py.get netm "ip" Py.VNone;
  mac ← Py.get netm "mac" Py.VNone;
  rx_bytes ← Py.get netm "rx_bytes" Py.VNone;
  tx_bytes ← Py.get netm "tx_bytes" Py.VNone;
  rx_packets ← Py.get netm "rx_packets" Py.VNone;
  tx_packets ← Py.get netm "tx_packets" Py.VNone;
  Py.Ok {| row_device_id := device_id;
           row_online := online;
           row_last_seen := last_seen;
           row_last_seen_ago := human_ago (Z.max 0 (now - last_seen));
           row_uptime_s := uptime_s;
           row_cpu_pct := cpu_pct;
           row_mem_pct := mem_pct;
           row_disk_pct := disk_pct;
           row_loadavg := loadavg;
           row_iface := iface;
           row_ip := ip;
           row_mac := mac;
           row_rx_bytes := rx_bytes;
           row_tx_bytes := tx_bytes;
           row_rx_packets := rx_packets;
           row_tx_packets := tx_packets |}.

(** The order of [sorted(DEVICES.items())]: the keys are distinct, so the
    pairs are ordered by their keys, compared as strings. *)
Definition key_le (x y : string * device_rec) : Prop :=
  String.leb (fst x) (fst y) = true.

#[global] Instance key_le_dec : RelDecision key_le :=
  fun x y => decide (String.leb (fst x) (fst y) = true).

Definition sorted_items (DEVICES : store) : list (string * device_rec) :=
  merge_sort key_le (map_to_list DEVICES).

Fixpoint rows_of (now : Z) (items : list (string * device_rec))
  : Py.result (list row) :=
  match items with
  | [] => Py.Ok []
  | (device_id, rec) :: items' =>
      r ← build_row now device_id rec;
      rs ← rows_of now items';
      Py.Ok (r :: rs)
  end.

(** [build_rows], app.py lines 47-76; [now] is [int(time.time())]. *)
Definition build_rows (now : Z) (DEVICES : store) : Py.result (list row * Z) :=
  rows ← rows_of now (sorted_items DEVICES);
  Py.Ok (rows, now).

End Server.

(** ** The agent, [agent/agent.py] *)

Module Agent.

(** What the probes observe of the host at one instant: [read_file path]
    is the text that [open(path).read()] returns, [None] when opening or
    reading raises; [check_output cmd] is the decoded standard output of
    the command, or the exception of [subprocess.check_output] or of
    [decode]. *)
Record env : Type := {
  read_file : string -> option string;
  check_output : list string -> Py.result string
}.

(** [sh], agent.py lines 5-7. *)
Definition sh (e : env) (cmd_list : list string) : Py.result string :=
  out ← check_output e cmd_list;
  Py.Ok (Py.strip out).

(** [read], agent.py lines 9-14. *)
Definition read (e : env) (path : string) (default : string) : string :=
  match read_file e path with
  | Some text => Py.strip text
  | None => default
  end.

(** [list(map(int, parts))] *)
Fixpoint ints_of (parts : list string) : Py.result (list Z) :=
  match parts with
  | [] => Py.Ok []
  | s :: parts' =>
      n ← Py.int_of_str s;
      ns ← ints_of parts';
      Py.Ok (n :: ns)
  end.

(** [_read_proc_stat], agent.py lines 58-66: [(total, idle_all)]. *)
Definition _read_proc_stat (e : env) : Py.result (Z * Z) :=
  match read_file e "/proc/stat" with
  | None => Py.Raise Py.OSError
  | Some text =>
      let parts := Py.split (Py.readline text) in
      ns ← ints_of (tail parts);
      let vals := ns ++ repeat 0 10 in
      match vals with
      | user :: nice :: system :: idle :: iowait :: irq :: softirq :: steal :: _ =>
          let idle_all := idle + iowait in
          let total := idle_all + user + nice + system + irq + softirq + steal in
          Py.Ok (total, idle_all)
      | _ => Py.Raise Py.ValueError
      end
  end.

(** Lines 72-73 of [cpu_pct], from the two samples. *)
Definition cpu_pct_of_samples (s1 s2 : Z * Z) : Py.result Py.float :=
  let '(t1, i1) := s1 in
  let '(t2, i2) := s2 in
  let td := t2 - t1 in
  let idl := i2 - i1 in
  q ← Py.int_truediv idl (Z.max td 1);
  Py.Ok (Py.round (Py.fmul (Py.fsub (Py.float_of_Z 1) q) (Py.float_of_Z 100)) 2).

(** [cpu_pct], agent.py lines 68-75; [e1] and [e2] are the host before and
    after [time.sleep(delay)]. *)
Definition cpu_pct (e1 e2 : env) : Py.float :=
  Py.try_except
    (s1 ← _read_proc_stat e1;
     s2 ← _read_proc_stat e2;
     cpu_pct_of_samples s1 s2)
    (S754_zero false).

(** [default_iface], agent.py lines 79-86. *)
Definition default_iface (e : env) : string :=
  Py.try_except
    (out ← sh e ["ip"; "route"; "show"; "default"];
     let parts := Py.split out in
     if existsb (String.eqb "dev") parts then
       i ← Py.list_index "dev" parts;
       Py.index parts (i + 1)%nat
     else Py.Ok "")
    "".

(** [ip_of], agent.py lines 88-95. *)
Definition ip_of (e : env) (iface : string) : string :=
  if String.eqb iface "" then ""
  else
    Py.try_except
      (out ← sh e ["ip"; "-o"; "-4"; "addr"; "show"; "dev"; iface];
       tok ← Py.index (Py.split out) 3;
       Py.Ok (Py.split_first "/" tok))
      "".

(** [mac_of], agent.py lines 97-98. *)
Definition mac_of (e : env) (iface : string) : string :=
  if String.eqb iface "" then ""
  else read e ("/sys/class/net/" +:+ iface +:+ "/address") "".

(** [nic_stats], agent.py lines 100-108. *)
Definition nic_stats (e : env) (iface : string) : Py.result (Z * Z * Z * Z) :=
  if String.eqb iface "" then Py.Ok (0, 0, 0, 0)
  else
    let stat name :=
      Py.int_of_str
        (read e ("/sys/class/net/" +:+ iface +:+ "/statistics/" +:+ name) "0") in
    rb ← stat "rx_bytes";
    tb ← stat "tx_bytes";
    rp ← stat "rx_packets";
    tp ← stat "tx_packets";
    Py.Ok (rb, tb, rp, tp).

(** *** The report loop, [main], agent.py lines 150-181 *)

(** How one call of [post_json] ends: it returns, it raises [HTTPError] or
    [URLError], or it raises another exception. *)
Inductive outcome : Type :=
| Sent
| HTTPFailure
| OtherFailure.

(** The surroundings of the loop: the value (or exception) of the [n]-th
    call of [collect] and the outcome of the [n]-th call of [post_json]. *)
Record world : Type := {
  samples : nat -> Py.result Py.value;
  posts : nat -> outcome
}.

(** What the loop does that can be observed from outside, in order. *)
Inductive event : Type :=
| Collected (payload : Py.value)
| Posted (payload : Py.value)
| Slept (seconds : Z).

Record state : Type := {
  collects : nat;
  sends : nat;
  trace : list event
}.

Definition init : state := {| collects := 0; sends := 0; trace := [] |}.

(** [time.sleep(seconds)] *)
Definition sleep (seconds : Z) (st : state) : state :=
  {| collects := collects st; sends := sends st;
     trace := trace st ++ [Slept seconds] |}.

(** [post_json(url, payload)] *)
Definition post_json (w : world) (payload : Py.value) (st : state)
  : outcome * state :=
  (posts w (sends st),
   {| collects := collects st; sends := S (sends st);
      trace := trace st ++ [Posted payload] |}).

(** [collect(dev, interval)] *)
Definition collect (w : world) (st : state) : Py.result (Py.value * state) :=
  payload ← samples w (collects st);
  Py.Ok (payload,
         {| collects := S (collects st); sends := sends st;
            trace := trace st ++ [Collected payload] |}).

(** The [for back in (2, 4, 8)] loop, lines 171-178. *)
Fixpoint retry (w : world) (backs : list Z) (payload : Py.value) (st : state)
  : state :=
  match backs with
  | [] => st
  | back :: backs' =>
      let st1 := sleep back st in
      let '(o, st2) := post_json w payload st1 in
      match o with
      | Sent => st2
      | HTTPFailure | OtherFailure => retry w backs' payload st2
      end
  end.

(** One iteration of [while True], lines 163-181.  [collect] is called
    outside the [try]: its exception leaves the loop. *)
Definition cycle (w : world) (interval : Z) (st : state) : Py.result state :=
  '(payload, st1) ← collect w st;
  let '(o, st2) := post_json w payload st1 in
  match o with
  | Sent => Py.Ok (sleep interval st2)
  | HTTPFailure => Py.Ok (retry w [2; 4; 8] payload st2)
  | OtherFailure => Py.Ok (sleep interval st2)
  end.

(** The first [n] iterations of [while True]. *)
Fixpoint iterations (w : world) (interval : Z) (n : nat) (st : state)
  : Py.result state :=
  match n with
  | O => Py.Ok st
  | S n' =>
      st' ← cycle w interval st;
      iterations w interval n' st'
  end.

(** [main] run for [n] iterations, with [--interval arg_interval]. *)
Definition main (w : world) (arg_interval : Z) (n : nat) : Py.result state :=
  let interval := Z.max 3 arg_interval in
  iterations w interval n init.

End Agent.

(** ** Statements of the specification that are compared with the code *)

Module Spec.
Import Server.

(** The key [k] is missing from the dict [d]. *)
Definition absent (d : list (string * Py.value)) (k : string) : bool :=
  negb (bool_decide (is_Some (Py.dict_lookup d k))).

(** The four required keys are present in the dict [d]. *)
Definition complete (d : list (string * Py.value)) : Prop :=
  forall k, In k REQUIRED -> is_Some (Py.dict_lookup d k).

(** "For all structurally valid payloads, submit stores them such that a
    subsequent read yields last_seen == ts and interval equal to the
    provided value (or the default if omitted)", a payload being
    structurally valid when it has the four required keys. *)
Definition stores_what_was_submitted (payload : Py.value) (DEVICES : store)
  : Prop :=
  forall dev ts system network,
    Py.getitem payload "device_id" = Py.Ok dev ->
    Py.getitem payload "ts" = Py.Ok ts ->
    Py.getitem payload "system" = Py.Ok system ->
    Py.getitem payload "network" = Py.Ok network ->
    exists rec,
      snd (metrics (Some payload) DEVICES) !! Py.str dev = Some rec /\
      Py.VInt (rec_last_seen rec) = ts /\
      Py.get payload "interval" (Py.VInt REPORT_INTERVAL_DEFAULT)
        = Py.Ok (Py.VInt (rec_interval rec)).



(** "cpu_pct = round((1 - idle_delta / max(total_delta, 1)) * 100, 2)" *)
Definition cpu_pct_formula (idle_delta total_delta : Z) : Py.result Py.float :=
  q ← Py.int_truediv idle_delta (Z.max total_delta 1);
  Py.Ok (Py.round (Py.fmul (Py.fsub (Py.float_of_Z 1) q) (Py.float_of_Z 100)) 2).

(** The events of retrying [payload] after each of the delays [backs]. *)
Definition retry_events (payload : Py.value) (backs : list Z)
  : list Agent.event :=
  flat_map (fun back => [Agent.Slept back; Agent.Posted payload]) backs.

(** How many of the delays [backs] are used when the next call of
    [post_json] is the [n]-th: those up to the first success. *)
Fixpoint retries_made (w : Agent.world) (n : nat) (backs : list Z) : nat :=
  match backs with
  | [] => O
  | _ :: backs' =>
      match Agent.posts w n with
      | Agent.Sent => 1%nat
      | _ => S (retries_made w (S n) backs')
      end
  end.


(** The payload is a JSON object. *)
Definition is_object (payload : Py.value) : Prop :=
  exists d, payload = Py.VDict d.


End Spec.

(** ** Hosts and networks used as examples *)

Module Examples.
Import Agent.

(** A first line of [/proc/stat] with total 100 and idle 80, and one with
    total 200 and idle 100. *)
Definition stat_before : env :=
  {| read_file := fun path =>
       if String.eqb path "/proc/stat"
       then Some ("cpu  10 0 10 70 10 0 0 0 0 0" +:+ String "010" "cpu0 1 2 3")
       else None;
     check_output := fun _ => Py.Raise Py.OSError |}.

Definition stat_after : env :=
  {| read_file := fun path =>
       if String.eqb path "/proc/stat"
       then Some ("cpu  60 0 40 80 20 0 0 0 0 0" +:+ String "010" "cpu0 1 2 3")
       else None;
     check_output := fun _ => Py.Raise Py.OSError |}.

(** A host whose [rx_bytes] counter file of [eth0] reads as the empty
    text, the other files holding [0]. *)
Definition empty_counter : env :=
  {| read_file := fun path =>
       if String.eqb path "/sys/class/net/eth0/statistics/rx_bytes"
       then Some ""
       else Some ("0" +:+ String "010" "");
     check_output := fun _ => Py.Raise Py.OSError |}.

(** The [n]-th sample carries [ts = n]. *)
Definition sample (n : nat) : Py.value :=
  Py.VDict [("device_id", Py.VStr "pi-1"); ("ts", Py.VInt (Z.of_nat n));
            ("interval", Py.VInt 10);
            ("system", Py.VDict []); ("network", Py.VDict [])].

(** The collector fails the first delivery and accepts every later one. *)
Definition one_failure : world :=
  {| samples := fun n => Py.Ok (sample n);
     posts := fun n => match n with O => HTTPFailure | _ => Sent end |}.

(** The collector is unreachable for the first four deliveries. *)
Definition four_failures : world :=
  {| samples := fun n => Py.Ok (sample n);
     posts := fun n => if (n <? 4)%nat then HTTPFailure else Sent |}.

End Examples.


(** ** Sequences of requests and what the store holds after them *)

Module Histories.
Import Server.

(** The requests [bodies] handled one after the other. *)
Fixpoint handle_all (bodies : list (option Py.value)) (DEVICES : store)
  : store :=
  match bodies with
  | [] => DEVICES
  | body :: bodies' => handle_all bodies' (snd (metrics body DEVICES))
  end.

(** The record [rec] under the key [device_id] is what lines 40-44 make of
    its own payload. *)
Definition made_from_payload (device_id : string) (rec : device_rec) : Prop :=
  exists d dev tsv,
    rec_metrics rec = Py.VDict d /\
    Spec.complete d /\
    Py.dict_lookup d "device_id" = Some dev /\
    device_id = Py.str dev /\
    Py.dict_lookup d "ts" = Some tsv /\
    Py.int tsv = Py.Ok (rec_last_seen rec) /\
    Py.int (default (Py.VInt REPORT_INTERVAL_DEFAULT)
                    (Py.dict_lookup d "interval"))
      = Py.Ok (rec_interval rec).

(** The [system] and [network] entries of the payload of [rec] are dicts
    (or are missing). *)
Definition listable (rec : device_rec) : Prop :=
  exists ds dn,
    Py.get (rec_metrics rec) "system" (Py.VDict []) = Py.Ok (Py.VDict ds) /\
    Py.get (rec_metrics rec) "network" (Py.VDict []) = Py.Ok (Py.VDict dn).

(** Ascending order of device ids. *)
Definition id_le (a b : string) : Prop := String.leb a b = true.

End Histories.

(** ** Stores and payloads used as examples *)

Module Stores.
Import Server.

Definition payload_of (device_id : Py.value) (ts : Z) (system : Py.value)
  : Py.value :=
  Py.VDict [("device_id", device_id); ("ts", Py.VInt ts);
            ("system", system); ("network", Py.VDict [])].

(** Two devices, [pi-2] having reported before [pi-1]. *)
Definition two_devices : store :=
  Histories.handle_all
    [Some (payload_of (Py.VStr "pi-2") 100 (Py.VDict []));
     Some (payload_of (Py.VStr "pi-1") 130 (Py.VDict []))]
    ∅.

End Stores.

(** ** What can be read off a trace of the agent *)

Module Traces.
Import Agent.

(** The payloads sampled, in order. *)
Fixpoint collected (t : list event) : list Py.value :=
  match t with
  | [] => []
  | Collected payload :: t' => payload :: collected t'
  | _ :: t' => collected t'
  end.

(** The payloads handed to [post_json], in order. *)
Fixpoint posted (t : list event) : list Py.value :=
  match t with
  | [] => []
  | Posted payload :: t' => payload :: posted t'
  | _ :: t' => posted t'
  end.

(** The arguments of [time.sleep], in order. *)
Fixpoint sleeps (t : list event) : list Z :=
  match t with
  | [] => []
  | Slept seconds :: t' => seconds :: sleeps t'
  | _ :: t' => sleeps t'
  end.

(** The sample that is current after the events [t], [last] being the
    current one before them. *)
Fixpoint latest (last : option Py.value) (t : list event) : option Py.value :=
  match t with
  | [] => last
  | Collected payload :: t' => latest (Some payload) t'
  | _ :: t' => latest last t'
  end.

(** Every payload sent in [t] is the sample that was current when it was
    sent. *)
Fixpoint sends_current_sample (last : option Py.value) (t : list event)
  : Prop :=
  match t with
  | [] => True
  | Collected payload :: t' => sends_current_sample (Some payload) t'
  | Posted payload :: t' =>
      last = Some payload /\ sends_current_sample last t'
  | Slept _ :: t' => sends_current_sample last t'
  end.

(** The seconds slept in [t]. *)
Definition slept_seconds (t : list event) : Z :=
  fold_right Z.add 0 (sleeps t).

End Traces.

(** ** Surroundings of the agent used as examples *)

Module Worlds.
Import Agent.

(** The second call of [collect] raises (a counter file that does not hold
    an integer); every delivery succeeds. *)
Definition second_sample_fails : world :=
  {| samples := fun n =>
       match n with
       | 1%nat => Py.Raise Py.ValueError
       | _ => Py.Ok (Examples.sample n)
       end;
     posts := fun _ => Sent |}.


End Worlds.

(** ** More of Python, for the probes of the agent *)

Module Builtins.
Import Py.

Definition fdiv : float -> float -> float := SFdiv prec emax.
Definition flt : float -> float -> bool := SFltb.

(** [float(n)] for an [int]. *)
Definition float_of_int (n : Z) : result float :=
  match float_of_Z n with
  | S754_infinity _ => Raise OverflowError
  | x => Ok x
  end.

(** [max(x, 1)] for a float [x]: the int 1 when [1 > x], and [x]
    otherwise; as the divisor of a float both are the same float. *)
Definition max_with_one (x : float) : float :=
  if flt x (float_of_Z 1) then float_of_Z 1 else x.

(** The line boundaries of [str.splitlines]: LF, CR, VT, FF, FS, GS and
    RS. *)
Definition is_line_end (c : ascii) : bool :=
  let n := code c in
  (n =? 10) || (n =? 13) || (n =? 11) || (n =? 12) ||
  (n =? 28) || (n =? 29) || (n =? 30).

Fixpoint splitlines_chars (cur : list ascii) (l : list ascii) : list string :=
  match l with
  | [] =>
      match cur with
      | [] => []
      | _ => [string_of_list_ascii (rev cur)]
      end
  | c :: l' =>
      if is_line_end c then
        let l'' :=
          match l' with
          | c' :: rest =>
              if (code c =? 13) && (code c' =? 10) then rest else l'
          | [] => l'
          end in
        string_of_list_ascii (rev cur) :: splitlines_chars [] l''
      else splitlines_chars (c :: cur) l'
  end.

(** [s.splitlines()]; CR LF counts as one boundary. *)
Definition splitlines (s : string) : list string :=
  splitlines_chars [] (list_ascii_of_string s).

Fixpoint file_lines_chars (cur : list ascii) (l : list ascii) : list string :=
  match l with
  | [] =>
      match cur with
      | [] => []
      | _ => [string_of_list_ascii (rev cur)]
      end
  | c :: l' =>
      if code c =? 10 then
        string_of_list_ascii (rev (c :: cur)) :: file_lines_chars [] l'
      else file_lines_chars (c :: cur) l'
  end.

(** The lines [for line in f] yields for a text file with contents [s]:
    each with its line feed. *)
Definition file_lines (s : string) : list string :=
  file_lines_chars [] (list_ascii_of_string s).

Fixpoint split_sep_chars (sep : ascii) (cur : list ascii) (l : list ascii)
  : list string :=
  match l with
  | [] => [string_of_list_ascii (rev cur)]
  | c :: l' =>
      if Ascii.eqb c sep then
        string_of_list_ascii (rev cur) :: split_sep_chars sep [] l'
      else split_sep_chars sep (c :: cur) l'
  end.

(** [s.split(sep)] for a one-character separator. *)
Definition split_sep (sep : ascii) (s : string) : list string :=
  split_sep_chars sep [] (list_ascii_of_string s).

(** [s.rstrip(c)] for a one-character argument. *)
Definition rstrip_char (c : ascii) (s : string) : string :=
  string_of_list_ascii
    (rev (lstrip (Ascii.eqb c) (rev (list_ascii_of_string s)))).

(** [s[:n]] *)
Definition prefix_of (n : nat) (s : string) : string := substring 0 n s.

(** *** [float(s)] for a [str] *)

Definition is_digit (c : ascii) : bool :=
  match digit_val c with Some _ => true | None => false end.

(** Underscores may stand between two digits only; they are removed. *)
Fixpoint drop_underscores (prev : option ascii) (l : list ascii)
  : option (list ascii) :=
  let prev_digit := match prev with Some p => is_digit p | None => false end in
  let prev_under :=
    match prev with Some p => Ascii.eqb p "_" | None => false end in
  match l with
  | [] => if prev_under then None else Some []
  | c :: l' =>
      if Ascii.eqb c "_" then
        if prev_digit then drop_underscores (Some c) l' else None
      else if prev_under && negb (is_digit c) then None
      else option_map (cons c) (drop_underscores (Some c) l')
  end.

(** The digits at the head of [l], accumulated on [acc]: the number, how
    many digits were read, and what follows them. *)
Fixpoint digits_run (acc : Z) (n : Z) (l : list ascii) : Z * Z * list ascii :=
  match l with
  | c :: l' =>
      match digit_val c with
      | Some d => digits_run (10 * acc + d) (n + 1) l'
      | None => (acc, n, l)
      end
  | [] => (acc, n, l)
  end.

Definition lower (c : ascii) : ascii :=
  let n := code c in
  if (65 <=? n) && (n <=? 90) then ascii_of_N (Z.to_N (n + 32)) else c.

Definition lower_is (word : string) (l : list ascii) : bool :=
  String.eqb (string_of_list_ascii (map lower l)) word.

(** A decimal literal without sign: [Some (c, k)] stands for [c * 10^k]. *)
Definition parse_decimal (l : list ascii) : option (Z * Z) :=
  let '(ip, ni, r1) := digits_run 0 0 l in
  let '(c, nf, r2) :=
    match r1 with
    | dot :: r =>
        if Ascii.eqb dot "." then digits_run ip 0 r else (ip, 0, r1)
    | [] => (ip, 0, r1)
    end in
  if ni + nf =? 0 then None
  else
    match r2 with
    | [] => Some (c, - nf)
    | e :: r3 =>
        if Ascii.eqb (lower e) "e" then
          let '(neg, r4) :=
            match r3 with
            | sg :: r =>
                if Ascii.eqb sg "-" then (true, r)
                else if Ascii.eqb sg "+" then (false, r)
                else (false, r3)
            | [] => (false, r3)
            end in
          let '(ev, ne, r5) := digits_run 0 0 r4 in
          match r5 with
          | [] =>
              if ne =? 0 then None
              else Some (c, (if neg then - ev else ev) - nf)
          | _ :: _ => None
          end
        else None
    end.

(** The float nearest to [c * 10^k] with the sign [s], for [0 <= c]. *)
Definition signed_decimal (s : bool) (c k : Z) : float :=
  match c with
  | Zpos p =>
      if 0 <=? k then float_of_ratio s (Z.to_pos (c * pow10 k)) 1
      else float_of_ratio s p (Z.to_pos (pow10 (- k)))
  | _ => S754_zero s
  end.

Definition float_of_str (s : string) : result float :=
  match drop_underscores None (list_ascii_of_string s) with
  | None => Raise ValueError
  | Some l =>
      let body := strip_chars is_literal_space l in
      let '(neg, rest) :=
        match body with
        | sg :: r =>
            if Ascii.eqb sg "-" then (true, r)
            else if Ascii.eqb sg "+" then (false, r)
            else (false, body)
        | [] => (false, body)
        end in
      if lower_is "inf" rest || lower_is "infinity" rest
      then Ok (S754_infinity neg)
      else if lower_is "nan" rest then Ok S754_nan
      else
        match parse_decimal rest with
        | Some (c, k) => Ok (signed_decimal neg c k)
        | None => Raise ValueError
        end
  end.

End Builtins.

(** ** The other probes of the agent, and [collect] *)

Module Sampler.
Import Agent Builtins.

(** [uptime_s], agent.py lines 21-26. *)
Definition uptime_s (e : env) : Py.float :=
  Py.try_except
    (tok ← Py.index (Py.split (read e "/proc/uptime" "")) 0;
     float_of_str tok)
    (S754_zero false).

(** [loadavg], agent.py lines 28-34. *)
Definition loadavg (e : env) : list Py.float :=
  Py.try_except
    (match Py.split (read e "/proc/loadavg" "") with
     | a :: b :: c :: _ =>
         fa ← float_of_str a;
         fb ← float_of_str b;
         fc ← float_of_str c;
         Py.Ok [fa; fb; fc]
     | _ => Py.Raise Py.ValueError
     end)
    [S754_zero false; S754_zero false; S754_zero false].

(** The loop of [mem_pct], lines 41-43: the dict [mm] after the lines. *)
Fixpoint meminfo (lines : list string) (mm : gmap string Z)
  : Py.result (gmap string Z) :=
  match lines with
  | [] => Py.Ok mm
  | line :: lines' =>
      k ← Py.index (split_sep ":" line) 0;
      v ← Py.index (split_sep ":" line) 1;
      tok ← Py.index (Py.split (Py.strip v)) 0;
      n ← Py.int_of_str tok;
      meminfo lines' (<[k := n]> mm)
  end.

(** Lines 44-46 of [mem_pct]. *)
Definition mem_pct_of (mm : gmap string Z) : Py.result Py.float :=
  tot ← float_of_int (default 1 (mm !! "MemTotal"));
  ava ← float_of_int (default 0 (mm !! "MemAvailable"));
  Py.Ok (Py.round
           (Py.fmul (Py.fsub (Py.float_of_Z 1) (fdiv ava (max_with_one tot)))
                    (Py.float_of_Z 100))
           2).

(** [mem_pct], agent.py lines 36-48. *)
Definition mem_pct (e : env) : Py.float :=
  Py.try_except
    (match read_file e "/proc/meminfo" with
     | None => Py.Raise Py.OSError
     | Some text =>
         mm ← meminfo (file_lines text) ∅;
         mem_pct_of mm
     end)
    (S754_zero false).

(** [disk_pct], agent.py lines 50-56. *)
Definition disk_pct (e : env) (mount : string) : Z :=
  Py.try_except
    (out ← sh e ["df"; "-P"; mount];
     line ← Py.index (splitlines out) 1;
     tok ← Py.index (Py.split line) 4;
     Py.int_of_str (rstrip_char "%" tok))
    0.

(** [device_id], agent.py lines 110-114; [hostname] is what
    [socket.gethostname()] returns, [prefer] the [--device-id] option. *)
Definition device_id (e : env) (hostname : string) (prefer : option string)
  : string :=
  let fallback :=
    let mid := read e "/etc/machine-id" "" in
    if negb (String.eqb mid "") then "dev-" +:+ prefix_of 12 mid
    else if negb (String.eqb hostname "") then hostname
    else "unknown" in
  match prefer with
  | Some p => if negb (String.eqb p "") then p else fallback
  | None => fallback
  end.

(** [collect], agent.py lines 124-148.  [e1] is the host up to the sleep
    inside [cpu_pct], [e2] the host after it; [now] is [epoch()]. *)
Definition collect (e1 e2 : env) (now : Z) (dev_id : string) (interval : Z)
  : Py.result Py.value :=
  let iface := default_iface e1 in
  '(rb, tb, rp, tp) ← nic_stats e1 iface;
  Py.Ok
    (Py.VDict
       [("device_id", Py.VStr dev_id);
        ("ts", Py.VInt now);
        ("interval", Py.VInt interval);
        ("system",
         Py.VDict
           [("uptime_s", Py.VFloat (Py.round (uptime_s e1) 1));
            ("cpu_pct", Py.VFloat (cpu_pct e1 e2));
            ("mem_pct", Py.VFloat (mem_pct e2));
            ("disk_pct", Py.VInt (disk_pct e2 "/"));
            ("loadavg", Py.VList (map Py.VFloat (loadavg e2)))]);
        ("network",
         Py.VDict
           [("iface", Py.VStr iface);
            ("ip", Py.VStr (ip_of e2 iface));
            ("mac", Py.VStr (mac_of e2 iface));
            ("rx_bytes", Py.VInt rb);
            ("tx_bytes", Py.VInt tb);
            ("rx_packets", Py.VInt rp);
            ("tx_packets", Py.VInt tp)])]).

End Sampler.

(** ** Decimal numerals, digit by digit *)

Module Digits.

(** The number read from the digits [d] after the number [acc]. *)
Fixpoint uint_val (acc : Z) (d : Decimal.uint) : Z :=
  match d with
  | Decimal.Nil => acc
  | Decimal.D0 d' => uint_val (10 * acc + 0) d'
  | Decimal.D1 d' => uint_val (10 * acc + 1) d'
  | Decimal.D2 d' => uint_val (10 * acc + 2) d'
  | Decimal.D3 d' => uint_val (10 * acc + 3) d'
  | Decimal.D4 d' => uint_val (10 * acc + 4) d'
  | Decimal.D5 d' => uint_val (10 * acc + 5) d'
  | Decimal.D6 d' => uint_val (10 * acc + 6) d'
  | Decimal.D7 d' => uint_val (10 * acc + 7) d'
  | Decimal.D8 d' => uint_val (10 * acc + 8) d'
  | Decimal.D9 d' => uint_val (10 * acc + 9) d'
  end.

(** A character that is a decimal digit or the minus sign. *)
Definition numeral_char (c : ascii) : bool :=
  Builtins.is_digit c || Ascii.eqb c "-".

End Digits.

(** ** Files and hosts used to state and to illustrate the probes *)

Module Hosts.
Import Agent.

(** The line feed. *)
Definition LF : string := String "010" EmptyString.

(** The path of a counter of an interface, as [nic_stats] builds it. *)
Definition counter_file (iface name : string) : string :=
  "/sys/class/net/" +:+ iface +:+ "/statistics/" +:+ name.

(** The first line of [/proc/stat] of [e] has a field that [int] rejects,
    or the file cannot be read. *)
Definition bad_stat (e : env) : Prop :=
  read_file e "/proc/stat" = None \/
  exists text bad,
    read_file e "/proc/stat" = Some text /\
    In bad (tail (Py.split (Py.readline text))) /\
    Py.int_of_str bad = Py.Raise Py.ValueError.

(** No character of [s] is white space. *)
Definition no_space (s : string) : Prop :=
  Forall (fun c => Py.is_space c = false) (list_ascii_of_string s).

Definition command (cmd : list string) : string := String.concat " " cmd.

(** A host with one interface, [eth0]. *)
Definition typical : env :=
  {| read_file := fun path =>
       if String.eqb path "/proc/stat"
       then Some ("cpu  10 0 10 70 10 0 0 0 0 0" +:+ LF +:+ "cpu0 1 2 3" +:+ LF)
       else if String.eqb path "/proc/uptime"
       then Some ("350735.47 234388.90" +:+ LF)
       else if String.eqb path "/proc/loadavg"
       then Some ("0.20 0.18 0.12 1/80 11206" +:+ LF)
       else if String.eqb path "/proc/meminfo"
       then Some ("MemTotal:        1000 kB" +:+ LF +:+
                  "MemFree:          100 kB" +:+ LF +:+
                  "MemAvailable:     250 kB" +:+ LF)
       else if String.eqb path "/etc/machine-id"
       then Some ("0123456789abcdef0123456789abcdef" +:+ LF)
       else if String.eqb path "/sys/class/net/eth0/address"
       then Some ("aa:bb:cc:dd:ee:ff" +:+ LF)
       else if String.eqb path (counter_file "eth0" "rx_bytes")
       then Some (Py.str_of_int 1000 +:+ LF)
       else if String.eqb path (counter_file "eth0" "tx_bytes")
       then Some (Py.str_of_int 2000 +:+ LF)
       else if String.eqb path (counter_file "eth0" "rx_packets")
       then Some (Py.str_of_int 10 +:+ LF)
       else if String.eqb path (counter_file "eth0" "tx_packets")
       then Some (Py.str_of_int 20 +:+ LF)
       else None;
     check_output := fun cmd =>
       if String.eqb (command cmd) "ip route show default"
       then Py.Ok ("default via 10.0.0.1 dev eth0 proto dhcp metric 100 " +:+ LF)
       else if String.eqb (command cmd) "ip -o -4 addr show dev eth0"
       then Py.Ok ("2: eth0    inet 10.0.0.5/24 brd 10.0.0.255 scope global eth0"
                   +:+ LF)
       else if String.eqb (command cmd) "df -P /"
       then Py.Ok ("Filesystem 1024-blocks Used Available Capacity Mounted on"
                   +:+ LF +:+ "/dev/sda1 1000 420 580 42% /" +:+ LF)
       else Py.Raise Py.OSError |}.

(** A kernel older than 3.14: [/proc/meminfo] has no [MemAvailable]. *)
Definition old_kernel : env :=
  {| read_file := fun path =>
       if String.eqb path "/proc/meminfo"
       then Some ("MemTotal:        1000 kB" +:+ LF +:+
                  "MemFree:          900 kB" +:+ LF)
       else None;
     check_output := fun _ => Py.Raise Py.OSError |}.

(** A host whose [/proc/meminfo] has a line without a colon and whose
    [/proc/loadavg] has two fields only, where nothing else can be read. *)
Definition odd_files : env :=
  {| read_file := fun path =>
       if String.eqb path "/proc/meminfo"
       then Some ("MemTotal:        1000 kB" +:+ LF +:+
                  "MemAvailable:     250 kB" +:+ LF +:+ "end" +:+ LF)
       else if String.eqb path "/proc/loadavg"
       then Some ("0.20 0.18" +:+ LF)
       else if String.eqb path "/proc/stat"
       then Some ("cpu  10 0 10 70 10 0 0 0 0 n/a" +:+ LF)
       else None;
     check_output := fun cmd =>
       if String.eqb (command cmd) "ip route show default"
       then Py.Ok ("default via 10.0.0.1 dev" +:+ LF)
       else Py.Raise Py.OSError |}.

End Hosts.

(** ** Properties of the collector *)

Section StateClassifier.
Import Server.

Lemma mark_online_state_spec now last_seen interval :
  mark_online_state now last_seen interval = true <->
  now - last_seen <= 2 * Z.max interval 10.
Proof. unfold mark_online_state, REPORT_INTERVAL_DEFAULT. apply Z.leb_le. Qed.

(** C1: a device is online exactly when its last report is at most
    [2 * max(interval, 10)] seconds old; the boundary value itself is
    online and one second more is offline. *)
Theorem mark_online_state_threshold :
  forall now last_seen interval : Z,
    (mark_online_state now last_seen interval = true <->
     now - last_seen <= 2 * Z.max interval 10) /\
    mark_online_state (last_seen + 2 * Z.max interval 10) last_seen interval
      = true /\
    mark_online_state (last_seen + (2 * Z.max interval 10 + 1)) last_seen interval
      = false.
Proof.
  intros now last_seen interval. split; [apply mark_online_state_spec|].
  split.
  - apply mark_online_state_spec. lia.
  - apply not_true_is_false. rewrite mark_online_state_spec. lia.
Qed.

Lemma human_ago_seconds s :
  s < 60 -> human_ago s = Py.str_of_int s +:+ "s ago".
Proof. intros H. unfold human_ago. apply Z.ltb_lt in H. now rewrite H. Qed.

Lemma human_ago_minutes s :
  60 <= s < 3600 -> human_ago s = Py.str_of_int (s / 60) +:+ "m ago".
Proof.
  intros [Hlo Hhi]. unfold human_ago.
  destruct (Z.ltb_spec s 60) as [?|_]; [lia|].
  destruct (Z.ltb_spec (s / 60) 60) as [_|Hge]; [reflexivity|].
  assert (s / 60 < 60) by (apply Z.div_lt_upper_bound; lia). lia.
Qed.

Lemma human_ago_hours s :
  3600 <= s < 86400 ->
  human_ago s =
    Py.str_of_int (s / 3600) +:+ "h " +:+ Py.str_of_int ((s / 60) mod 60)
      +:+ "m ago".
Proof.
  intros [Hlo Hhi]. unfold human_ago.
  assert (Hdd : s / 60 / 60 = s / 3600)
    by (rewrite Z.div_div by lia; reflexivity).
  destruct (Z.ltb_spec s 60) as [?|_]; [lia|].
  destruct (Z.ltb_spec (s / 60) 60) as [Hlt|_].
  { assert (60 <= s / 60) by (apply Z.div_le_lower_bound; lia). lia. }
  rewrite Hdd.
  destruct (Z.ltb_spec (s / 3600) 24) as [_|Hge]; [reflexivity|].
  assert (s / 3600 < 24) by (apply Z.div_lt_upper_bound; lia). lia.
Qed.

Lemma human_ago_days s :
  86400 <= s -> human_ago s = Py.str_of_int (s / 86400) +:+ "d ago".
Proof.
  intros Hlo. unfold human_ago.
  assert (Hdd : s / 60 / 60 = s / 3600)
    by (rewrite Z.div_div by lia; reflexivity).
  assert (Hddd : s / 3600 / 24 = s / 86400)
    by (rewrite Z.div_div by lia; reflexivity).
  destruct (Z.ltb_spec s 60) as [?|_]; [lia|].
  destruct (Z.ltb_spec (s / 60) 60) as [Hlt|_].
  { assert (60 <= s / 60) by (apply Z.div_le_lower_bound; lia). lia. }
  rewrite Hdd.
  destruct (Z.ltb_spec (s / 3600) 24) as [Hlt|_].
  { assert (24 <= s / 3600) by (apply Z.div_le_lower_bound; lia). lia. }
  now rewrite Hddd.
Qed.

Lemma get_dict d k dflt :
  Py.get (Py.VDict d) k dflt = Py.Ok (default dflt (Py.dict_lookup d k)).
Proof. simpl. now destruct (Py.dict_lookup d k). Qed.

Lemma get_ok_dict v k dflt x :
  Py.get v k dflt = Py.Ok x -> exists d, v = Py.VDict d.
Proof. destruct v; simpl; try discriminate. eauto. Qed.

(** A row is built exactly when the [system] and [network] entries of the
    stored payload are dicts (or are missing), and then every field is
    read from them. *)
Lemma build_row_ok now device_id rec r :
  build_row now device_id rec = Py.Ok r <->
  exists ds dn,
    Py.get (rec_metrics rec) "system" (Py.VDict []) = Py.Ok (Py.VDict ds) /\
    Py.get (rec_metrics rec) "network" (Py.VDict []) = Py.Ok (Py.VDict dn) /\
    r = {| row_device_id := device_id;
           row_online :=
             mark_online_state now (rec_last_seen rec) (rec_interval rec);
           row_last_seen := rec_last_seen rec;
           row_last_seen_ago := human_ago (Z.max 0 (now - rec_last_seen rec));
           row_uptime_s := field ds "uptime_s";
           row_cpu_pct := field ds "cpu_pct";
           row_mem_pct := field ds "mem_pct";
           row_disk_pct := field ds "disk_pct";
           row_loadavg := field ds "loadavg";
           row_iface := field dn "iface";
           row_ip := field dn "ip";
           row_mac := field dn "mac";
           row_rx_bytes := field dn "rx_bytes";
           row_tx_bytes := field dn "tx_bytes";
           row_rx_packets := field dn "rx_packets";
           row_tx_packets := field dn "tx_packets" |}.
Proof.
  unfold build_row. split.
  - intros H.
    destruct (Py.get (rec_metrics rec) "system" _) as [sysm|] eqn:Hs;
      [|discriminate].
    destruct (Py.get (rec_metrics rec) "network" _) as [netm|] eqn:Hn;
      [|discriminate].
    cbn [mbind result_bind Py.bind] in H.
    destruct sysm as [| | | | |?|ds]; try discriminate H.
    destruct netm as [| | | | |?|dn];
      try (rewrite !get_dict in H; discriminate H).
    exists ds, dn. repeat split.
    rewrite !get_dict in H. cbn [mbind result_bind Py.bind] in H.
    now inversion H.
  - intros (ds & dn & -> & -> & ->).
    cbn [mbind result_bind Py.bind]. now rewrite !get_dict.
Qed.

(** C8: the recency text of a row is [human_ago] of the age clamped at
    zero, and on a nonnegative number of seconds [human_ago] prints
    seconds below a minute, minutes below an hour, hours and minutes below
    a day, and whole days (seconds divided by 86400) from there on. *)
Theorem human_ago_format :
  forall seconds : Z,
    0 <= seconds ->
    (seconds < 60 -> human_ago seconds = Py.str_of_int seconds +:+ "s ago") /\
    (60 <= seconds < 3600 ->
     human_ago seconds = Py.str_of_int (seconds / 60) +:+ "m ago") /\
    (3600 <= seconds < 86400 ->
     human_ago seconds =
       Py.str_of_int (seconds / 60 / 60) +:+ "h "
         +:+ Py.str_of_int ((seconds / 60) mod 60) +:+ "m ago") /\
    (86400 <= seconds ->
     human_ago seconds = Py.str_of_int (seconds / 86400) +:+ "d ago") /\
    (human_ago 0 = "0s ago" /\ human_ago 59 = "59s ago" /\
     human_ago 60 = "1m ago" /\ human_ago 3600 = "1h 0m ago" /\
     human_ago 3661 = "1h 1m ago" /\ human_ago 86400 = "1d ago") /\
    (forall now device_id rec r,
       build_row now device_id rec = Py.Ok r ->
       row_last_seen_ago r = human_ago (Z.max 0 (now - rec_last_seen rec)) /\
       0 <= Z.max 0 (now - rec_last_seen rec)).
Proof.
  intros seconds Hnonneg.
  split; [apply human_ago_seconds|].
  split; [apply human_ago_minutes|].
  split.
  { intros H. rewrite human_ago_hours by assumption.
    rewrite Z.div_div by lia. reflexivity. }
  split; [apply human_ago_days|].
  split; [repeat split; reflexivity|].
  intros now device_id rec r Hr.
  apply build_row_ok in Hr as (ds & dn & _ & _ & ->). simpl. split; [reflexivity|lia].
Qed.

(** An hour, a minute and a second ago. *)
Lemma human_ago_format_witness :
  0 <= 3661 /\ human_ago 3661 = "1h 1m ago".
Proof.
  split; [lia|].
  destruct (human_ago_format 3661 ltac:(lia)) as (_ & _ & Hh & _).
  rewrite Hh by lia. reflexivity.
Defined.

End StateClassifier.

Section IngestStore.
Import Server Spec.

Implicit Types (d : list (string * Py.value)) (DEVICES : store).

Lemma absent_true d k : absent d k = true <-> Py.dict_lookup d k = None.
Proof.
  unfold absent. rewrite negb_true_iff, bool_decide_eq_false.
  rewrite <- eq_None_not_Some. reflexivity.
Qed.

Lemma first_missing_dict d keys :
  first_missing keys (Py.VDict d) = Py.Ok (List.find (absent d) keys).
Proof.
  induction keys as [|k keys IH]; [reflexivity|].
  cbn [first_missing List.find Py.contains mbind result_bind Py.bind].
  unfold absent at 1.
  destruct (bool_decide (is_Some (Py.dict_lookup d k))); simpl; auto.
Qed.


(** An accepted request stores the coerced record and touches no other
    key. *)
Lemma metrics_accepted body DEVICES DEVICES' :
  metrics body DEVICES = (Accepted, DEVICES') ->
  exists payload device_id rec,
    body = Some payload /\
    first_missing REQUIRED payload = Py.Ok None /\
    coerce payload = Py.Ok (device_id, rec) /\
    rec_metrics rec = payload /\
    DEVICES' = <[device_id := rec]> DEVICES.
Proof.
  unfold metrics. destruct body as [payload|]; [|discriminate].
  destruct (first_missing REQUIRED payload) as [[k|]|e] eqn:Hm; try discriminate.
  destruct (coerce payload) as [[device_id rec]|e] eqn:Hc; [|discriminate].
  intros [= <-]. exists payload, device_id, rec. repeat split; auto.
  unfold coerce in Hc.
  destruct (Py.getitem payload "device_id") as [dev|]; [|discriminate].
  destruct (Py.getitem payload "ts") as [tsv|]; [|discriminate].
  cbn [mbind result_bind Py.bind] in Hc.
  destruct (Py.int tsv) as [ts|]; [|discriminate].
  destruct (Py.get payload "interval" _) as [iv|]; [|discriminate].
  cbn [mbind result_bind Py.bind] in Hc.
  destruct (Py.int iv) as [interval|]; [|discriminate].
  cbn [mbind result_bind Py.bind] in Hc. now inversion Hc.
Qed.

Lemma complete_first_missing d :
  complete d -> first_missing REQUIRED (Py.VDict d) = Py.Ok None.
Proof.
  intros Hc. rewrite first_missing_dict. f_equal.
  destruct (List.find (absent d) REQUIRED) as [k|] eqn:Hf; [|reflexivity].
  apply List.find_some in Hf as [Hin Ha]. apply absent_true in Ha.
  destruct (Hc k Hin) as [v Hv]. congruence.
Qed.


Lemma getitem_dict d k v :
  Py.dict_lookup d k = Some v -> Py.getitem (Py.VDict d) k = Py.Ok v.
Proof. simpl. now intros ->. Qed.

Lemma required_keys :
  In "device_id" REQUIRED /\ In "ts" REQUIRED /\
  In "system" REQUIRED /\ In "network" REQUIRED.
Proof. unfold REQUIRED. simpl. tauto. Qed.

(** The key and record that [coerce] produces for a dict. *)
Lemma coerce_dict d dev tsv :
  Py.dict_lookup d "device_id" = Some dev ->
  Py.dict_lookup d "ts" = Some tsv ->
  coerce (Py.VDict d) =
    (ts ← Py.int tsv;
     interval ← Py.int (default (Py.VInt REPORT_INTERVAL_DEFAULT)
                                (Py.dict_lookup d "interval"));
     Py.Ok (Py.str dev,
            {| rec_metrics := Py.VDict d; rec_last_seen := ts;
               rec_interval := interval |})).
Proof.
  intros Hd Ht. unfold coerce.
  rewrite (getitem_dict _ _ _ Hd), (getitem_dict _ _ _ Ht), get_dict.
  reflexivity.
Qed.

Lemma sorted_items_In DEVICES k rec :
  In (k, rec) (sorted_items DEVICES) <-> DEVICES !! k = Some rec.
Proof.
  unfold sorted_items. rewrite <- list_elem_of_In.
  rewrite merge_sort_Permutation. apply elem_of_map_to_list.
Qed.

Lemma rows_of_In now items rows k rec :
  rows_of now items = Py.Ok rows ->
  In (k, rec) items ->
  exists r, In r rows /\ build_row now k rec = Py.Ok r.
Proof.
  revert rows. induction items as [|[k' rec'] items IH]; intros rows Hrows Hin.
  - destruct Hin.
  - cbn [rows_of mbind result_bind Py.bind] in Hrows.
    destruct (build_row now k' rec') as [r'|] eqn:Hr'; [|discriminate].
    destruct (rows_of now items) as [rs|] eqn:Hrs; [|discriminate].
    injection Hrows as <-.
    destruct Hin as [[= -> ->]|Hin].
    + exists r'. split; [now left|assumption].
    + destruct (IH rs eq_refl Hin) as (r & Hr & Hb).
      exists r. split; [now right|assumption].
Qed.

(** Every stored record shows up in what [build_rows] returns. *)
Lemma build_rows_lookup now DEVICES rows now' k rec :
  build_rows now DEVICES = Py.Ok (rows, now') ->
  DEVICES !! k = Some rec ->
  exists r, In r rows /\ build_row now k rec = Py.Ok r.
Proof.
  unfold build_rows. intros Hb Hl.
  destruct (rows_of now (sorted_items DEVICES)) as [rs|] eqn:Hrs;
    [|discriminate].
  injection Hb as <- <-.
  eapply rows_of_In; [eassumption|]. now apply sorted_items_In.
Qed.









(** The body [null]: the membership test of the schema check raises
    [TypeError], which leaves the handler. *)
Lemma metrics_null_body DEVICES :
  metrics (Some Py.VNone) DEVICES = (Unhandled Py.TypeError, DEVICES).
Proof. reflexivity. Qed.

(** A list of the four names passes the schema check; the subscript of
    line 40 raises [TypeError]. *)
Lemma metrics_list_of_names DEVICES :
  metrics (Some (Py.VList (map Py.VStr REQUIRED))) DEVICES
    = (Unhandled Py.TypeError, DEVICES).
Proof. reflexivity. Qed.


(** A body that is no object never passes: a number, a boolean or [null]
    stops the schema check with [TypeError]; a list or a text is either
    answered 400 by the schema check or, when it holds the four names,
    stopped by the subscript of line 40 with [TypeError]. *)
Lemma metrics_body_not_an_object payload DEVICES :
  ~ is_object payload ->
  metrics (Some payload) DEVICES = (Unhandled Py.TypeError, DEVICES) \/
  exists k',
    In k' REQUIRED /\ Py.contains k' payload = Py.Ok false /\
    metrics (Some payload) DEVICES
      = (BadRequest ("missing field: " +:+ k'), DEVICES).
Proof.
  intros Hno. unfold metrics.
  destruct (first_missing REQUIRED payload) as [[k'|]|e] eqn:Hf.
  - right. exists k'. split; [|split; [|reflexivity]].
    + clear Hno. revert Hf. generalize REQUIRED as keys.
      induction keys as [|k0 keys IH]; [discriminate|].
      cbn [first_missing mbind result_bind Py.bind].
      destruct (Py.contains k0 payload) as [[|]|]; try discriminate.
      * intros Hf. right. now apply IH.
      * intros [= <-]. now left.
    + clear Hno. revert Hf. generalize REQUIRED as keys.
      induction keys as [|k0 keys IH]; [discriminate|].
      cbn [first_missing mbind result_bind Py.bind].
      destruct (Py.contains k0 payload) as [[|]|] eqn:Hc; try discriminate.
      * exact IH.
      * now intros [= <-].
  - left. destruct payload as [| | | | |l|d]; try reflexivity.
    exfalso. apply Hno. now exists d.
  - left. destruct payload as [| | | | |l|d];
      try (vm_compute in Hf; injection Hf as <-; reflexivity);
      try discriminate Hf.
    + exfalso. clear Hno. revert Hf. generalize REQUIRED as keys.
      induction keys as [|k0 keys IH]; [discriminate|].
      cbn [first_missing mbind result_bind Py.bind Py.contains].
      destruct (Py.is_substring k0 _); [exact IH|discriminate].
    + exfalso. clear Hno. revert Hf. generalize REQUIRED as keys.
      induction keys as [|k0 keys IH]; [discriminate|].
      cbn [first_missing mbind result_bind Py.bind Py.contains].
      destruct (existsb _ l); [exact IH|discriminate].
    + rewrite first_missing_dict in Hf. discriminate Hf.
Qed.

(** C10: when the four keys are present but [int(ts)], or [int] of a
    present [interval], raises, the exception leaves the handler before
    the assignment and [DEVICES] is left as it was. *)
Theorem metrics_coercion_failure :
  forall d DEVICES tsv e,
    complete d ->
    Py.dict_lookup d "ts" = Some tsv ->
    (Py.int tsv = Py.Raise e \/
     exists iv, Py.dict_lookup d "interval" = Some iv /\
                Py.int iv = Py.Raise e) ->
    exists e',
      metrics (Some (Py.VDict d)) DEVICES = (Unhandled e', DEVICES).
Proof.
  intros d DEVICES tsv e Hc Hts Hfail.
  destruct (Hc "device_id") as [dev Hdev]; [apply required_keys|].
  unfold metrics. rewrite (complete_first_missing d Hc).
  rewrite (coerce_dict d dev tsv Hdev Hts).
  destruct (Py.int tsv) as [ts|e1] eqn:Hi.
  - destruct Hfail as [Hf|(iv & Hiv & Hf)]; [discriminate|].
    rewrite Hiv. cbn [default from_option id mbind result_bind Py.bind]. rewrite Hf.
    exists e. reflexivity.
  - exists e1. reflexivity.
Qed.

(** A payload whose [ts] is the JSON [null]. *)
Lemma metrics_coercion_failure_witness :
  exists e',
    metrics
      (Some (Py.VDict [("device_id", Py.VStr "pi-1"); ("ts", Py.VNone);
                       ("system", Py.VDict []); ("network", Py.VDict [])]))
      ∅
    = (Unhandled e', ∅).
Proof.
  apply (metrics_coercion_failure _ ∅ Py.VNone Py.TypeError).
  - intros k Hk. simpl in Hk.
    destruct Hk as [<-|[<-|[<-|[<-|[]]]]]; simpl; eauto.
  - reflexivity.
  - left. reflexivity.
Defined.

(** A payload with the four keys whose [ts] is the JSON [null]: [int(ts)]
    raises, nothing is stored, and no read can yield [last_seen == ts]. *)
Lemma null_ts_is_not_stored :
  ~ stores_what_was_submitted
      (Py.VDict [("device_id", Py.VStr "pi-1"); ("ts", Py.VNone);
                 ("system", Py.VDict []); ("network", Py.VDict [])])
      ∅.
Proof.
  intros H.
  destruct (H (Py.VStr "pi-1") Py.VNone (Py.VDict []) (Py.VDict [])
              eq_refl eq_refl eq_refl eq_refl) as (rec & Hl & _).
  cbn in Hl. rewrite lookup_empty in Hl. discriminate Hl.
Qed.

(** C2, amended: a payload with the four keys whose [ts], and whose
    [interval] when present, can be coerced by [int] is accepted and stored
    under [str(device_id)]; reading it back yields [last_seen == int(ts)]
    and [interval == int(interval)], the latter being 10 when the payload
    has no [interval]. *)
Theorem metrics_stores_coerced :
  forall d DEVICES dev tsv ts interval,
    complete d ->
    Py.dict_lookup d "device_id" = Some dev ->
    Py.dict_lookup d "ts" = Some tsv ->
    Py.int tsv = Py.Ok ts ->
    Py.int (default (Py.VInt REPORT_INTERVAL_DEFAULT)
                    (Py.dict_lookup d "interval")) = Py.Ok interval ->
    exists DEVICES' rec,
      metrics (Some (Py.VDict d)) DEVICES = (Accepted, DEVICES') /\
      DEVICES' !! Py.str dev = Some rec /\
      rec_metrics rec = Py.VDict d /\
      rec_last_seen rec = ts /\
      rec_interval rec = interval /\
      (Py.dict_lookup d "interval" = None -> rec_interval rec = 10) /\
      (forall now rows now',
         build_rows now DEVICES' = Py.Ok (rows, now') ->
         exists r,
           In r rows /\ row_device_id r = Py.str dev /\
           row_last_seen r = ts /\
           row_online r = mark_online_state now ts interval).
Proof.
  intros d DEVICES dev tsv ts interval Hc Hdev Hts Hi Hiv.
  set (rec := {| rec_metrics := Py.VDict d; rec_last_seen := ts;
                 rec_interval := interval |}).
  exists (<[Py.str dev := rec]> DEVICES), rec.
  split.
  { unfold metrics. rewrite (complete_first_missing d Hc).
    rewrite (coerce_dict d dev tsv Hdev Hts), Hi.
    cbn [mbind result_bind Py.bind]. rewrite Hiv. reflexivity. }
  split; [apply lookup_insert_eq|].
  repeat split.
  - intros Hnone. rewrite Hnone in Hiv. simpl in Hiv.
    injection Hiv as <-. reflexivity.
  - intros now rows now' Hb.
    destruct (build_rows_lookup now _ rows now' (Py.str dev) rec Hb)
      as (r & Hin & Hr); [apply lookup_insert_eq|].
    exists r. split; [assumption|].
    apply build_row_ok in Hr as (ds & dn & _ & _ & ->). simpl. auto.
Qed.

(** A payload without [interval] is stored with the default interval. *)
Lemma metrics_stores_coerced_witness :
  exists DEVICES' rec,
    metrics
      (Some (Py.VDict [("device_id", Py.VStr "pi-1"); ("ts", Py.VInt 1700000000);
                       ("system", Py.VDict []); ("network", Py.VDict [])]))
      ∅
    = (Accepted, DEVICES') /\
    DEVICES' !! "pi-1" = Some rec /\
    rec_last_seen rec = 1700000000 /\
    rec_interval rec = 10.
Proof.
  destruct (metrics_stores_coerced
              [("device_id", Py.VStr "pi-1"); ("ts", Py.VInt 1700000000);
               ("system", Py.VDict []); ("network", Py.VDict [])]
              ∅ (Py.VStr "pi-1") (Py.VInt 1700000000) 1700000000 10)
    as (DEVICES' & rec & Hm & Hl & _ & Hts & Hiv & _).
  - intros k Hk. simpl in Hk.
    destruct Hk as [<-|[<-|[<-|[<-|[]]]]]; simpl; eauto.
  - reflexivity.
  - reflexivity.
  - reflexivity.
  - reflexivity.
  - exists DEVICES', rec. auto.
Defined.




End IngestStore.

(** ** Properties of the agent *)

Section Reporter.
Import Agent Spec.

(** Names the facts [retry_spec] gives about the state in which the rest
    of the schedule runs. *)
Ltac use_retry_spec IH :=
  match goal with
  | |- context [retry ?w ?backs ?payload ?s] =>
      let Ht := fresh "Ht" in
      let Hs := fresh "Hs" in
      let Hc := fresh "Hc" in
      destruct (IH s) as (Ht & Hs & Hc);
      cbn [sends trace collects] in Ht, Hs, Hc;
      rewrite Ht, Hs, Hc
  end.

Lemma retry_spec w backs payload st :
  trace (retry w backs payload st)
    = trace st ++
      retry_events payload (firstn (retries_made w (sends st) backs) backs) /\
  sends (retry w backs payload st)
    = (sends st + retries_made w (sends st) backs)%nat /\
  collects (retry w backs payload st) = collects st.
Proof.
  revert st. induction backs as [|back backs IH]; intros st.
  - simpl. rewrite app_nil_r. auto with arith.
  - cbn [retry retries_made post_json sleep sends trace collects].
    destruct (posts w (sends st)) eqn:Hp;
      [|use_retry_spec IH|use_retry_spec IH];
      cbn [firstn retry_events flat_map sends trace collects app];
      rewrite <- ?app_assoc; (split; [reflexivity|]); split;
      solve [lia|reflexivity].
Qed.

Lemma retries_made_bounds w n backs :
  (retries_made w n backs <= length backs)%nat /\
  (backs <> [] -> 1 <= retries_made w n backs)%nat.
Proof.
  revert n. induction backs as [|back backs IH]; intros n; simpl.
  - split; [lia|congruence].
  - destruct (posts w n); try (split; lia);
      destruct (IH (S n)) as [Hle _]; split; lia.
Qed.





(** C5, what the code does: after a retry that succeeded the next sample
    is taken at once, and so it is after the three retries have failed;
    only a delivery that succeeded at the first attempt is followed by
    [time.sleep(interval)]. *)
Theorem no_sleep_after_retries :
  (exists st,
     main Examples.one_failure 10 2 = Py.Ok st /\
     trace st
       = [Collected (Examples.sample 0); Posted (Examples.sample 0);
          Slept 2; Posted (Examples.sample 0);
          Collected (Examples.sample 1); Posted (Examples.sample 1);
          Slept 10]) /\
  (exists st,
     main Examples.four_failures 10 2 = Py.Ok st /\
     trace st
       = [Collected (Examples.sample 0); Posted (Examples.sample 0);
          Slept 2; Posted (Examples.sample 0);
          Slept 4; Posted (Examples.sample 0);
          Slept 8; Posted (Examples.sample 0);
          Collected (Examples.sample 1); Posted (Examples.sample 1);
          Slept 10]).
Proof. split; eexists; (split; [reflexivity|reflexivity]). Qed.

End Reporter.

Section Probes.
Import Agent Spec.

(** The probes written inside [try] fall back to the empty text when the
    command or the file cannot be read. *)
Lemma guarded_probes_fail_soft e iface :
  (check_output e ["ip"; "route"; "show"; "default"] = Py.Raise Py.OSError ->
   default_iface e = "") /\
  (check_output e ["ip"; "-o"; "-4"; "addr"; "show"; "dev"; iface]
     = Py.Raise Py.OSError ->
   ip_of e iface = "") /\
  (read_file e ("/sys/class/net/" +:+ iface +:+ "/address") = None ->
   mac_of e iface = "").
Proof.
  unfold default_iface, ip_of, mac_of, read, sh. repeat split.
  - intros ->. reflexivity.
  - intros ->. now destruct (String.eqb iface "").
  - intros ->. now destruct (String.eqb iface "").
Qed.

(** C9, what the code does: without an interface [nic_stats] returns four
    zeros, but a counter file that does not hold an integer makes [int]
    raise out of [nic_stats]. *)
Theorem nic_stats_raises :
  (forall e, nic_stats e "" = Py.Ok (0, 0, 0, 0)) /\
  nic_stats Examples.empty_counter "eth0" = Py.Raise Py.ValueError.
Proof. split; [intros e|]; reflexivity. Qed.

Lemma cpu_pct_of_samples_formula t1 i1 t2 i2 :
  cpu_pct_of_samples (t1, i1) (t2, i2) = cpu_pct_formula (i2 - i1) (t2 - t1).
Proof. reflexivity. Qed.

(** C7: from two samples [(t1, i1)] and [(t2, i2)] of the CPU counters,
    [cpu_pct] is [round((1 - idle_delta / max(total_delta, 1)) * 100, 2)]
    with [idle_delta = i2 - i1] and [total_delta = t2 - t1]; for
    [(100, 80)] then [(200, 100)] it is 80.0. *)
Theorem cpu_pct_two_samples :
  forall e1 e2 t1 i1 t2 i2,
    _read_proc_stat e1 = Py.Ok (t1, i1) ->
    _read_proc_stat e2 = Py.Ok (t2, i2) ->
    (forall v, cpu_pct_formula (i2 - i1) (t2 - t1) = Py.Ok v ->
               cpu_pct e1 e2 = v) /\
    (forall e, cpu_pct_formula (i2 - i1) (t2 - t1) = Py.Raise e ->
               cpu_pct e1 e2 = S754_zero false) /\
    (t1 = 100 -> i1 = 80 -> t2 = 200 -> i2 = 100 ->
     cpu_pct e1 e2 = Py.float_of_Z 80).
Proof.
  intros e1 e2 t1 i1 t2 i2 H1 H2. unfold cpu_pct. rewrite H1, H2.
  cbn [mbind result_bind Py.bind]. rewrite cpu_pct_of_samples_formula.
  split; [intros v ->; reflexivity|].
  split; [intros e ->; reflexivity|].
  intros -> -> -> ->. vm_compute. reflexivity.
Qed.

(** The two first lines of [/proc/stat] of the examples give the samples
    [(100, 80)] and [(200, 100)]. *)
Lemma cpu_pct_two_samples_witness :
  cpu_pct Examples.stat_before Examples.stat_after = Py.float_of_Z 80.
Proof.
  apply (proj2 (proj2 (cpu_pct_two_samples
                         Examples.stat_before Examples.stat_after
                         100 80 200 100 eq_refl eq_refl)));
    reflexivity.
Defined.

End Probes.

(** ** Further properties of the collector *)

Section Listing.
Import Server Spec Histories.

Implicit Types (DEVICES : store).

Lemma ascii_compare_lt_trans a b c :
  Ascii.compare a b = Lt -> Ascii.compare b c = Lt -> Ascii.compare a c = Lt.
Proof.
  unfold Ascii.compare. rewrite !N.compare_lt_iff. apply N.lt_trans.
Qed.

Lemma string_compare_lt_trans s1 :
  forall s2 s3,
    String.compare s1 s2 = Lt -> String.compare s2 s3 = Lt ->
    String.compare s1 s3 = Lt.
Proof.
  induction s1 as [|a s1 IH]; intros [|b s2] [|c s3]; simpl;
    try discriminate; try reflexivity.
  destruct (Ascii.compare a b) eqn:Hab; try discriminate;
    destruct (Ascii.compare b c) eqn:Hbc; try discriminate; intros H1 H2.
  - apply Ascii.compare_eq_iff in Hab, Hbc. subst.
    unfold Ascii.compare. rewrite N.compare_refl. eauto.
  - apply Ascii.compare_eq_iff in Hab. subst. now rewrite Hbc.
  - apply Ascii.compare_eq_iff in Hbc. subst. now rewrite Hab.
  - now rewrite (ascii_compare_lt_trans a b c Hab Hbc).
Qed.

Lemma id_le_compare a b : id_le a b <-> String.compare a b <> Gt.
Proof.
  unfold id_le, String.leb. destruct (String.compare a b); split;
    congruence.
Qed.

#[local] Instance id_le_trans : Transitive id_le.
Proof.
  intros a b c. rewrite !id_le_compare. intros Hab Hbc.
  destruct (String.compare a b) eqn:H1; [| |congruence].
  - apply String.compare_eq_iff in H1. now subst.
  - destruct (String.compare b c) eqn:H2; [| |congruence].
    + apply String.compare_eq_iff in H2. subst. congruence.
    + rewrite (string_compare_lt_trans a b c H1 H2). congruence.
Qed.

#[local] Instance key_le_trans : Transitive key_le.
Proof. intros x y z. apply (id_le_trans (fst x) (fst y) (fst z)). Qed.

#[local] Instance key_le_total : Total key_le.
Proof. intros x y. apply String.leb_total. Qed.

Lemma sorted_items_sorted DEVICES :
  StronglySorted id_le (map fst (sorted_items DEVICES)).
Proof.
  unfold sorted_items.
  pose proof (StronglySorted_merge_sort key_le (map_to_list DEVICES)) as H.
  induction H as [|x l Hl IH Hx]; simpl; constructor; [assumption|].
  apply Forall_map. eapply Forall_impl; [exact Hx|]. auto.
Qed.

Lemma sorted_items_keys DEVICES :
  map fst (sorted_items DEVICES) ≡ₚ map fst (map_to_list DEVICES).
Proof. unfold sorted_items. now rewrite merge_sort_Permutation. Qed.

Lemma rows_of_ids now items rows :
  rows_of now items = Py.Ok rows ->
  map row_device_id rows = map fst items.
Proof.
  revert rows. induction items as [|[k rec] items IH]; intros rows H.
  - injection H as <-. reflexivity.
  - cbn [rows_of mbind result_bind Py.bind] in H.
    destruct (build_row now k rec) as [r|] eqn:Hr; [|discriminate].
    destruct (rows_of now items) as [rs|] eqn:Hrs; [|discriminate].
    injection H as <-. simpl. rewrite (IH rs eq_refl). f_equal.
    apply build_row_ok in Hr as (ds & dn & _ & _ & ->). reflexivity.
Qed.

(** [rows_of] succeeds exactly when every row can be built. *)
Lemma rows_of_ok_iff now items :
  (exists rows, rows_of now items = Py.Ok rows) <->
  (forall k rec, In (k, rec) items -> listable rec).
Proof.
  induction items as [|[k rec] items IH].
  - split; [intros _ k rec []|intros _; now exists []].
  - cbn [rows_of mbind result_bind Py.bind]. split.
    + intros [rows H].
      destruct (build_row now k rec) as [r|] eqn:Hr; [|discriminate].
      destruct (rows_of now items) as [rs|] eqn:Hrs; [|discriminate].
      intros k' rec' [[= <- <-]|Hin].
      * apply build_row_ok in Hr as (ds & dn & Hs & Hn & _).
        now exists ds, dn.
      * apply (proj1 IH (ex_intro _ rs eq_refl) k' rec' Hin).
    + intros Hall.
      destruct (Hall k rec) as (ds & dn & Hs & Hn); [now left|].
      destruct (proj2 IH) as [rs Hrs];
        [intros k' rec' Hin; apply (Hall k' rec'); now right|].
      rewrite Hrs.
      destruct (build_row now k rec) as [r|e] eqn:Hr; [eauto|].
      exfalso.
      assert (Hex : exists r, build_row now k rec = Py.Ok r)
        by (eexists; apply build_row_ok; exists ds, dn; eauto).
      destruct Hex as [r Hr']. congruence.
Qed.

(** X1: the listing has one row per stored device, in ascending order of
    the device ids, and returns the [now] it was evaluated at. *)
Theorem build_rows_one_row_per_device :
  forall now DEVICES rows now',
    build_rows now DEVICES = Py.Ok (rows, now') ->
    now' = now /\
    length rows = size DEVICES /\
    NoDup (map row_device_id rows) /\
    StronglySorted id_le (map row_device_id rows) /\
    (forall k, In k (map row_device_id rows) <-> is_Some (DEVICES !! k)).
Proof.
  intros now DEVICES rows now' H. unfold build_rows in H.
  destruct (rows_of now (sorted_items DEVICES)) as [rs|] eqn:Hrs;
    [|discriminate].
  injection H as <- <-. split; [reflexivity|].
  pose proof (rows_of_ids _ _ _ Hrs) as Hids.
  split.
  { rewrite <- (length_map row_device_id), Hids, length_map.
    unfold sorted_items. rewrite merge_sort_Permutation.
    apply length_map_to_list. }
  rewrite Hids. split.
  { rewrite sorted_items_keys. apply NoDup_fst_map_to_list. }
  split; [apply sorted_items_sorted|].
  intros k. rewrite in_map_iff. split.
  - intros ([k' rec] & <- & Hin). apply sorted_items_In in Hin. eauto.
  - intros [rec Hrec]. exists (k, rec). split; [reflexivity|].
    now apply sorted_items_In.
Qed.

(** The two devices of the example are listed, [pi-1] first. *)
Lemma build_rows_one_row_per_device_witness :
  exists rows,
    build_rows 140 Stores.two_devices = Py.Ok (rows, 140) /\
    length rows = size Stores.two_devices /\
    StronglySorted id_le (map row_device_id rows).
Proof.
  destruct (build_rows 140 Stores.two_devices) as [[rows now']|e] eqn:H.
  - destruct (build_rows_one_row_per_device _ _ _ _ H)
      as (-> & Hlen & _ & Hsorted & _).
    exists rows. auto.
  - vm_compute in H. discriminate H.
Defined.

(** X2: the listing succeeds exactly when the [system] and [network]
    entries of every stored payload are dicts; one record for which they
    are not makes it raise, whatever the other records are. *)
Theorem build_rows_ok_iff :
  forall now DEVICES,
    (exists rows, build_rows now DEVICES = Py.Ok (rows, now)) <->
    (forall k rec, DEVICES !! k = Some rec -> listable rec).
Proof.
  intros now DEVICES. unfold build_rows. split.
  - intros [rows H] k rec Hl.
    destruct (rows_of now (sorted_items DEVICES)) as [rs|] eqn:Hrs;
      [|discriminate].
    apply (proj1 (rows_of_ok_iff now _) (ex_intro _ rs Hrs) k rec).
    now apply sorted_items_In.
  - intros Hall.
    destruct (proj2 (rows_of_ok_iff now (sorted_items DEVICES))) as [rs Hrs].
    + intros k rec Hin. apply (Hall k rec). now apply sorted_items_In.
    + exists rs. now rewrite Hrs.
Qed.

End Listing.

Section Submissions.
Import Server Spec Histories.

Implicit Types (DEVICES : store) (payload : Py.value).

(** What a request does to the store does not depend on the store: it is
    either nothing or the insertion of one record. *)
Lemma metrics_cases body :
  (exists resp, resp <> Accepted /\
                forall DEVICES, metrics body DEVICES = (resp, DEVICES)) \/
  (exists payload k rec,
     body = Some payload /\
     first_missing REQUIRED payload = Py.Ok None /\
     coerce payload = Py.Ok (k, rec) /\
     forall DEVICES, metrics body DEVICES = (Accepted, <[k := rec]> DEVICES)).
Proof.
  unfold metrics. destruct body as [payload|].
  - destruct (first_missing REQUIRED payload) as [[k|]|e] eqn:Hf.
    + left. eexists. split; [|reflexivity]. discriminate.
    + destruct (coerce payload) as [[k rec]|e] eqn:Hc.
      * right. exists payload, k, rec. auto.
      * left. eexists. split; [|reflexivity]. discriminate.
    + left. eexists. split; [|reflexivity]. discriminate.
  - left. eexists. split; [|reflexivity]. discriminate.
Qed.

Lemma coerce_ok payload k rec :
  coerce payload = Py.Ok (k, rec) ->
  exists d dev tsv,
    payload = Py.VDict d /\
    Py.dict_lookup d "device_id" = Some dev /\
    k = Py.str dev /\
    Py.dict_lookup d "ts" = Some tsv /\
    Py.int tsv = Py.Ok (rec_last_seen rec) /\
    Py.int (default (Py.VInt REPORT_INTERVAL_DEFAULT)
                    (Py.dict_lookup d "interval"))
      = Py.Ok (rec_interval rec) /\
    rec_metrics rec = payload.
Proof.
  intros Hc. destruct payload as [| | | | | |d]; try discriminate Hc.
  unfold coerce in Hc. simpl in Hc.
  destruct (Py.dict_lookup d "device_id") as [dev|] eqn:Hd; [|discriminate].
  destruct (Py.dict_lookup d "ts") as [tsv|] eqn:Ht; [|discriminate].
  cbn [mbind result_bind Py.bind] in Hc.
  destruct (Py.int tsv) as [ts|] eqn:Hi; [|discriminate].
  cbn [mbind result_bind Py.bind] in Hc.
  exists d, dev, tsv.
  destruct (Py.dict_lookup d "interval") as [iv|] eqn:Hv;
    cbn [mbind result_bind Py.bind default from_option id] in Hc |- *.
  - destruct (Py.int iv) as [interval|] eqn:Hiv; [|discriminate].
    cbn [mbind result_bind Py.bind] in Hc. injection Hc as <- <-.
    repeat split; auto.
  - injection Hc as <- <-. repeat split; auto.
Qed.

Lemma first_missing_none_complete d :
  first_missing REQUIRED (Py.VDict d) = Py.Ok None -> complete d.
Proof.
  rewrite first_missing_dict. intros Hf k Hk.
  assert (Hf' : List.find (absent d) REQUIRED = None) by congruence.
  pose proof (List.find_none _ _ Hf' k Hk) as Ha.
  apply not_true_iff_false in Ha. rewrite absent_true in Ha.
  destruct (Py.dict_lookup d k); [eauto|congruence].
Qed.

Lemma handle_all_app bodies1 bodies2 DEVICES :
  handle_all (bodies1 ++ bodies2) DEVICES
    = handle_all bodies2 (handle_all bodies1 DEVICES).
Proof.
  revert DEVICES. induction bodies1 as [|b bs IH]; intros DEVICES;
    [reflexivity|]. simpl. apply IH.
Qed.

(** X3: a payload whose [system] or [network] value is not a dict passes
    the schema check and is stored; from then on the listing raises at
    every evaluation time, for all devices. *)
Theorem unlistable_payload_breaks_listing :
  forall payload DEVICES DEVICES' key v,
    metrics (Some payload) DEVICES = (Accepted, DEVICES') ->
    key = "system" \/ key = "network" ->
    Py.getitem payload key = Py.Ok v ->
    (forall d, v <> Py.VDict d) ->
    forall now, exists e, build_rows now DEVICES' = Py.Raise e.
Proof.
  intros payload DEVICES DEVICES' key v Hm Hkey Hv Hnd now.
  destruct (metrics_accepted _ _ _ Hm)
    as (payload' & k & rec & [= <-] & _ & _ & Hrec & ->).
  unfold build_rows.
  destruct (rows_of now (sorted_items (<[k := rec]> DEVICES))) as [rs|e] eqn:Hrs;
    [exfalso|eauto].
  assert (Hl : listable rec).
  { eapply (proj1 (rows_of_ok_iff now _)); [eauto|].
    apply sorted_items_In. apply lookup_insert_eq. }
  destruct Hl as (ds & dn & Hs & Hn). rewrite Hrec in Hs, Hn.
  destruct payload as [| | | | | |d]; try discriminate Hv.
  simpl in Hv, Hs, Hn.
  destruct Hkey as [-> | ->];
    destruct (Py.dict_lookup d _) as [x|]; try discriminate Hv;
    injection Hv as ->.
  - injection Hs as ->. now apply (Hnd ds).
  - injection Hn as ->. now apply (Hnd dn).
Qed.

(** A report whose [system] is the JSON [null] is accepted after the two
    devices of the example, and the listing raises. *)
Lemma unlistable_payload_breaks_listing_witness :
  exists e,
    build_rows 200
      (snd (metrics (Some (Stores.payload_of (Py.VStr "pi-3") 150 Py.VNone))
                    Stores.two_devices))
    = Py.Raise e.
Proof.
  apply (unlistable_payload_breaks_listing
           (Stores.payload_of (Py.VStr "pi-3") 150 Py.VNone)
           Stores.two_devices _ "system" Py.VNone).
  - reflexivity.
  - now left.
  - reflexivity.
  - intros d. discriminate.
Defined.

Lemma coerce_key payload k rec :
  coerce payload = Py.Ok (k, rec) ->
  exists dev, Py.getitem payload "device_id" = Py.Ok dev /\ k = Py.str dev.
Proof.
  intros Hc. destruct (coerce_ok _ _ _ Hc) as (d & dev & tsv & -> & Hd & -> & _).
  exists dev. split; [now apply getitem_dict|reflexivity].
Qed.

(** X4: of two accepted submissions whose device ids have the same text,
    the later one alone determines the store, whichever carries the larger
    [ts]; in particular submitting a payload twice changes nothing more. *)
Theorem last_submission_wins :
  forall p1 p2 DEVICES D1 D2 dev1 dev2,
    metrics (Some p1) DEVICES = (Accepted, D1) ->
    metrics (Some p2) D1 = (Accepted, D2) ->
    Py.getitem p1 "device_id" = Py.Ok dev1 ->
    Py.getitem p2 "device_id" = Py.Ok dev2 ->
    Py.str dev1 = Py.str dev2 ->
    metrics (Some p2) DEVICES = (Accepted, D2) /\
    exists rec, D2 !! Py.str dev2 = Some rec /\ rec_metrics rec = p2.
Proof.
  intros p1 p2 DEVICES D1 D2 dev1 dev2 H1 H2 Hd1 Hd2 Hstr.
  destruct (metrics_accepted _ _ _ H1)
    as (? & k1 & rec1 & [= <-] & _ & Hc1 & _ & ->).
  destruct (metrics_accepted _ _ _ H2)
    as (? & k2 & rec2 & [= <-] & Hf2 & Hc2 & Hrec2 & ->).
  destruct (coerce_key _ _ _ Hc1) as (dev1' & Hd1' & ->).
  destruct (coerce_key _ _ _ Hc2) as (dev2' & Hd2' & ->).
  assert (dev1' = dev1) as -> by congruence.
  assert (dev2' = dev2) as -> by congruence.
  rewrite Hstr, insert_insert_eq. split.
  - unfold metrics. now rewrite Hf2, Hc2.
  - exists rec2. split; [apply lookup_insert_eq|assumption].
Qed.

(** The device that reported as the number 7 at [ts = 200] reports as the
    text 7 at [ts = 100]: the older report replaces the newer one. *)
Lemma last_submission_wins_witness :
  exists rec,
    snd (metrics (Some (Stores.payload_of (Py.VStr "7") 100 (Py.VDict [])))
           (snd (metrics
                   (Some (Stores.payload_of (Py.VInt 7) 200 (Py.VDict [])))
                   ∅)))
      !! "7" = Some rec /\
    rec_last_seen rec = 100.
Proof.
  destruct (last_submission_wins
              (Stores.payload_of (Py.VInt 7) 200 (Py.VDict []))
              (Stores.payload_of (Py.VStr "7") 100 (Py.VDict []))
              ∅ _ _ (Py.VInt 7) (Py.VStr "7")
              eq_refl eq_refl eq_refl eq_refl eq_refl)
    as (_ & rec & Hl & Hrec).
  exists rec. split; [exact Hl|].
  cbn in Hl. rewrite lookup_insert_eq in Hl. injection Hl as <-. reflexivity.
Defined.

(** X5: submissions for devices whose ids have different texts commute:
    the store after both does not depend on which arrived first. *)
Theorem submissions_commute :
  forall p1 p2 DEVICES dev1 dev2,
    Py.getitem p1 "device_id" = Py.Ok dev1 ->
    Py.getitem p2 "device_id" = Py.Ok dev2 ->
    Py.str dev1 <> Py.str dev2 ->
    handle_all [Some p1; Some p2] DEVICES
      = handle_all [Some p2; Some p1] DEVICES.
Proof.
  intros p1 p2 DEVICES dev1 dev2 Hd1 Hd2 Hne. cbn [handle_all].
  destruct (metrics_cases (Some p1))
    as [(r1 & _ & Hr1)|(? & k1 & rec1 & [= <-] & _ & Hc1 & Ha1)];
    destruct (metrics_cases (Some p2))
      as [(r2 & _ & Hr2)|(? & k2 & rec2 & [= <-] & _ & Hc2 & Ha2)].
  - repeat first [rewrite Hr1 | rewrite Hr2 | progress cbn [snd]].
    reflexivity.
  - repeat first [rewrite Hr1 | rewrite Ha2 | progress cbn [snd]].
    reflexivity.
  - repeat first [rewrite Ha1 | rewrite Hr2 | progress cbn [snd]].
    reflexivity.
  - repeat first [rewrite Ha1 | rewrite Ha2 | progress cbn [snd]].
    destruct (coerce_key _ _ _ Hc1) as (dev1' & Hd1' & ->).
    destruct (coerce_key _ _ _ Hc2) as (dev2' & Hd2' & ->).
    apply insert_insert_ne. congruence.
Qed.

(** The two devices of the example may report in either order. *)
Lemma submissions_commute_witness :
  handle_all [Some (Stores.payload_of (Py.VStr "pi-2") 100 (Py.VDict []));
              Some (Stores.payload_of (Py.VStr "pi-1") 130 (Py.VDict []))] ∅
  = handle_all [Some (Stores.payload_of (Py.VStr "pi-1") 130 (Py.VDict []));
                Some (Stores.payload_of (Py.VStr "pi-2") 100 (Py.VDict []))] ∅.
Proof.
  apply (submissions_commute _ _ ∅ (Py.VStr "pi-2") (Py.VStr "pi-1"));
    [reflexivity|reflexivity|discriminate].
Defined.

Lemma metrics_keeps_devices body DEVICES :
  (forall k, is_Some (DEVICES !! k) ->
             is_Some (snd (metrics body DEVICES) !! k)) /\
  (size DEVICES <= size (snd (metrics body DEVICES)) <= S (size DEVICES))%nat.
Proof.
  destruct (metrics_cases body) as [(r & _ & Hr)|(p & k & rec & _ & _ & _ & Ha)].
  - rewrite Hr. simpl. split; [auto|lia].
  - rewrite Ha. simpl. split.
    + intros k' Hk'. apply lookup_insert_is_Some'. now right.
    + rewrite map_size_insert. destruct (DEVICES !! k); simpl; lia.
Qed.

(** X6: no sequence of requests removes a device from the store, and each
    request adds at most one. *)
Theorem devices_are_never_removed :
  forall bodies DEVICES,
    (forall k, is_Some (DEVICES !! k) ->
               is_Some (handle_all bodies DEVICES !! k)) /\
    (size DEVICES <= size (handle_all bodies DEVICES)
                  <= size DEVICES + length bodies)%nat.
Proof.
  induction bodies as [|body bodies IH]; intros DEVICES.
  - simpl. split; [auto|lia].
  - cbn [handle_all length].
    destruct (metrics_keeps_devices body DEVICES) as [Hk Hs].
    destruct (IH (snd (metrics body DEVICES))) as [Hk' Hs'].
    split; [auto|lia].
Qed.

(** X7: whatever requests were handled since the start, with an empty
    store, every record is the one lines 40-44 make of the payload it
    holds: the payload is a dict with the four keys, the key of the record
    is [str] of its [device_id], [last_seen] is [int] of its [ts] and
    [interval] is [int] of its [interval], or 10. *)
Theorem records_are_made_from_their_payload :
  forall bodies k rec,
    handle_all bodies ∅ !! k = Some rec ->
    made_from_payload k rec.
Proof.
  intros bodies.
  enough (H : forall DEVICES,
             (forall k rec, DEVICES !! k = Some rec -> made_from_payload k rec) ->
             forall k rec, handle_all bodies DEVICES !! k = Some rec ->
                           made_from_payload k rec).
  { apply H. intros k rec Hl. rewrite lookup_empty in Hl. discriminate. }
  induction bodies as [|body bodies IH]; intros DEVICES Hinv; [exact Hinv|].
  cbn [handle_all]. apply IH.
  destruct (metrics_cases body) as [(r & _ & Hr)|(p & k0 & rec0 & _ & Hf & Hc & Ha)].
  - rewrite Hr. exact Hinv.
  - rewrite Ha. simpl. intros k rec Hl.
    apply lookup_insert_Some in Hl as [[<- <-]|[_ Hl]]; [|now apply Hinv].
    destruct (coerce_ok _ _ _ Hc)
      as (d & dev & tsv & -> & Hd & -> & Ht & Hi & Hiv & Hrec).
    exists d, dev, tsv. repeat split; auto.
    now apply first_missing_none_complete.
Qed.

(** The record of [pi-1] in the example. *)
Lemma records_are_made_from_their_payload_witness :
  exists rec,
    Stores.two_devices !! "pi-1" = Some rec /\ made_from_payload "pi-1" rec.
Proof.
  destruct (Stores.two_devices !! "pi-1") as [rec|] eqn:Hl.
  - exists rec. split; [reflexivity|].
    apply (records_are_made_from_their_payload _ _ _ Hl).
  - vm_compute in Hl. discriminate Hl.
Defined.

(** X8: a record whose [last_seen] is not before the evaluation time (a
    device whose clock runs ahead) is listed as online and seen "0s ago",
    whatever its interval. *)
Theorem report_from_the_future :
  forall now device_id rec r,
    build_row now device_id rec = Py.Ok r ->
    now <= rec_last_seen rec ->
    row_online r = true /\ row_last_seen_ago r = "0s ago".
Proof.
  intros now device_id rec r Hr Hle.
  apply build_row_ok in Hr as (ds & dn & _ & _ & ->). simpl. split.
  - apply mark_online_state_spec. lia.
  - replace (Z.max 0 (now - rec_last_seen rec)) with 0 by lia. reflexivity.
Qed.

(** A report stamped ten seconds ahead of the collector's clock. *)
Lemma report_from_the_future_witness :
  exists r,
    build_row 120 "pi-1"
      {| rec_metrics := Stores.payload_of (Py.VStr "pi-1") 130 (Py.VDict []);
         rec_last_seen := 130; rec_interval := 10 |} = Py.Ok r /\
    row_online r = true /\ row_last_seen_ago r = "0s ago".
Proof.
  destruct (build_row 120 "pi-1" _) as [r|e] eqn:Hr.
  - exists r. split; [reflexivity|].
    apply (report_from_the_future _ _ _ _ Hr). simpl. lia.
  - vm_compute in Hr. discriminate Hr.
Defined.

End Submissions.

(** ** Further properties of the agent *)

Section Loop.
Import Agent Spec Traces.

Lemma collected_app t1 t2 : collected (t1 ++ t2) = collected t1 ++ collected t2.
Proof.
  induction t1 as [|[p|p|x] t1 IH]; simpl; [reflexivity| |assumption|assumption].
  now rewrite IH.
Qed.

Lemma posted_app t1 t2 : posted (t1 ++ t2) = posted t1 ++ posted t2.
Proof.
  induction t1 as [|[p|p|x] t1 IH]; simpl; [reflexivity|assumption| |assumption].
  now rewrite IH.
Qed.

Lemma sleeps_app t1 t2 : sleeps (t1 ++ t2) = sleeps t1 ++ sleeps t2.
Proof.
  induction t1 as [|[p|p|x] t1 IH]; simpl; [reflexivity|assumption|assumption|].
  now rewrite IH.
Qed.

Lemma latest_app last t1 t2 : latest last (t1 ++ t2) = latest (latest last t1) t2.
Proof.
  revert last. induction t1 as [|[p|p|x] t1 IH]; intros last; simpl; auto.
Qed.

Lemma sends_current_sample_app last t1 t2 :
  sends_current_sample last (t1 ++ t2) <->
  sends_current_sample last t1 /\ sends_current_sample (latest last t1) t2.
Proof.
  revert last. induction t1 as [|[p|p|x] t1 IH]; intros last; simpl.
  - tauto.
  - apply IH.
  - rewrite IH. tauto.
  - apply IH.
Qed.

(** The events of a retry episode: no sample, only the payload [payload]
    is sent, and the delays are the first [k] of the schedule. *)
Lemma retry_events_facts payload backs :
  collected (retry_events payload backs) = [] /\
  posted (retry_events payload backs) = repeat payload (length backs) /\
  sleeps (retry_events payload backs) = backs /\
  latest (Some payload) (retry_events payload backs) = Some payload /\
  sends_current_sample (Some payload) (retry_events payload backs).
Proof.
  induction backs as [|back backs (Hc & Hp & Hs & Hl & Hcur)]; simpl.
  - repeat split; reflexivity.
  - rewrite Hc, Hp, Hs, Hl. repeat split; auto.
Qed.

Lemma Ok_inj {A} (a b : A) : Py.Ok a = Py.Ok b -> a = b.
Proof. congruence. Qed.

(** What one iteration adds to the trace and to the counters. *)
Lemma cycle_spec w interval st st' :
  cycle w interval st = Py.Ok st' ->
  exists payload ext,
    samples w (collects st) = Py.Ok payload /\
    collects st' = S (collects st) /\
    trace st' = trace st ++ Collected payload :: Posted payload :: ext /\
    ((posts w (sends st) <> HTTPFailure /\
      ext = [Slept interval] /\ sends st' = S (sends st)) \/
     (posts w (sends st) = HTTPFailure /\
      exists k, (1 <= k <= 3)%nat /\
                ext = retry_events payload (firstn k [2; 4; 8]) /\
                sends st' = (S (sends st) + k)%nat)).
Proof.
  unfold cycle, collect.
  destruct (samples w (collects st)) as [payload|e] eqn:Hs; [|discriminate].
  cbn [mbind result_bind Py.bind post_json sends trace collects].
  intros H. exists payload.
  destruct (posts w (sends st)) eqn:Hp; apply Ok_inj in H; subst st'.
  - exists [Slept interval].
    cbn [sleep sends trace collects]. rewrite <- !app_assoc.
    split; [reflexivity|]. split; [reflexivity|]. split; [reflexivity|].
    left. split; [congruence|]. split; reflexivity.
  - match goal with |- context [retry w ?b payload ?s] =>
      destruct (retry_spec w b payload s) as (Ht & Hn & Hc);
      destruct (retries_made_bounds w (sends s) b) as [Hle Hpos] end.
    cbn [sends trace collects] in *.
    eexists. rewrite Ht, Hn, Hc, <- !app_assoc.
    split; [reflexivity|]. split; [reflexivity|]. split; [reflexivity|].
    right. split; [reflexivity|]. eexists. split; [|split; reflexivity].
    simpl in Hle. split; [apply Hpos; discriminate|exact Hle].
  - exists [Slept interval].
    cbn [sleep sends trace collects]. rewrite <- !app_assoc.
    split; [reflexivity|]. split; [reflexivity|]. split; [reflexivity|].
    left. split; [congruence|]. split; reflexivity.
Qed.

Lemma iterations_add w interval n m st :
  iterations w interval (n + m) st
    = (st' ← iterations w interval n st; iterations w interval m st').
Proof.
  revert st. induction n as [|n IH]; intros st; [reflexivity|].
  cbn [Nat.add iterations mbind result_bind Py.bind].
  destruct (cycle w interval st) as [st1|e]; [apply IH|reflexivity].
Qed.

Lemma firstn_schedule k :
  (1 <= k <= 3)%nat ->
  firstn k [2; 4; 8] = [2] \/ firstn k [2; 4; 8] = [2; 4] \/
  firstn k [2; 4; 8] = [2; 4; 8].
Proof.
  intros Hk. destruct k as [|[|[|[|k]]]]; simpl; auto; lia.
Qed.

(** The invariant of the loop, from any state on. *)
Lemma iterations_inv w interval n :
  forall st st',
    iterations w interval n st = Py.Ok st' ->
    collects st' = (collects st + n)%nat /\
    (sends st + n <= sends st' <= sends st + 4 * n)%nat /\
    exists ext,
      trace st' = trace st ++ ext /\
      map Py.Ok (collected ext) = map (samples w) (seq (collects st) n) /\
      length (posted ext) = (sends st' - sends st)%nat /\
      (forall last, sends_current_sample last ext) /\
      Forall (fun s => s = 2 \/ s = 4 \/ s = 8 \/ s = interval) (sleeps ext) /\
      (2 <= interval -> 2 * Z.of_nat n <= slept_seconds ext).
Proof.
  induction n as [|n IH]; intros st st' H.
  - apply Ok_inj in H. subst st'. split; [lia|]. split; [lia|].
    exists []. rewrite app_nil_r, Nat.sub_diag. unfold slept_seconds. simpl.
    repeat split; auto. lia.
  - cbn [iterations mbind result_bind Py.bind] in H.
    destruct (cycle w interval st) as [st1|e] eqn:Hc; [|discriminate].
    destruct (cycle_spec _ _ _ _ Hc) as (payload & ext1 & Hs & Hc1 & Ht1 & Hcase).
    destruct (IH st1 st' H)
      as (Hc2 & Hn2 & ext2 & Ht2 & Hcol2 & Hpost2 & Hcur2 & Hsl2 & Hsum2).
    assert (Hfacts :
      collected ext1 = [] /\ posted ext1 = repeat payload (length (posted ext1)) /\
      (S (length (posted ext1)) = sends st1 - sends st)%nat /\
      (1 <= sends st1 - sends st <= 4)%nat /\
      latest (Some payload) ext1 = Some payload /\
      sends_current_sample (Some payload) ext1 /\
      Forall (fun s => s = 2 \/ s = 4 \/ s = 8 \/ s = interval) (sleeps ext1) /\
      (2 <= interval -> 2 <= fold_right Z.add 0 (sleeps ext1))).
    { destruct Hcase as [(_ & -> & Hn1)|(_ & k & Hk & -> & Hn1)].
      - simpl. rewrite Hn1. repeat split; auto; try lia.
      - destruct (retry_events_facts payload (firstn k [2; 4; 8]))
          as (Ha & Hb & Hd & He & Hf).
        rewrite Ha, Hb, Hd, He, repeat_length.
        assert (Hlen : length (firstn k [2; 4; 8]) = k)
          by (rewrite length_firstn; simpl; lia).
        rewrite Hlen, Hn1.
        repeat split; auto; try lia.
        + destruct (firstn_schedule k Hk) as [-> | [-> | ->]];
            repeat first [apply List.Forall_nil
                         | apply List.Forall_cons; [auto 6|]].
        + intros _. destruct (firstn_schedule k Hk) as [-> | [-> | ->]];
            simpl; lia. }
    destruct Hfacts as (Hcol1 & Hrep1 & Hlen1 & Hn1 & Hlat1 & Hcur1 & Hsl1 & Hsum1).
    split; [lia|]. split; [lia|].
    exists (Collected payload :: Posted payload :: ext1 ++ ext2).
    split; [rewrite Ht2, Ht1, <- app_assoc; reflexivity|].
    split.
    { cbn [collected]. rewrite collected_app, Hcol1. cbn [app map seq].
      rewrite Hs, Hcol2, Hc1. reflexivity. }
    split.
    { cbn [posted length]. rewrite posted_app, length_app, Hpost2. lia. }
    split.
    { intros last. cbn [sends_current_sample]. split; [reflexivity|].
      apply sends_current_sample_app. split; [assumption|apply Hcur2]. }
    split.
    { cbn [sleeps]. rewrite sleeps_app. apply Forall_app. split; assumption. }
    intros Hi. unfold slept_seconds in *. cbn [sleeps].
    rewrite sleeps_app, fold_right_app.
    assert (Hshift : forall l acc,
              fold_right Z.add acc l = fold_right Z.add 0 l + acc).
    { induction l as [|x l IHl]; intros acc; simpl; [lia|].
      rewrite IHl. lia. }
    rewrite Hshift. specialize (Hsum1 Hi). specialize (Hsum2 Hi). lia.
Qed.

(** X9: after [n] iterations the agent has taken the samples 0 to [n - 1]
    once each and in order, has called [post_json] between [n] and [4 n]
    times, and every payload it sent was the latest sample at that
    moment. *)
Theorem main_samples_and_sends :
  forall w arg_interval n st,
    main w arg_interval n = Py.Ok st ->
    collects st = n /\
    map Py.Ok (collected (trace st)) = map (samples w) (seq 0 n) /\
    length (posted (trace st)) = sends st /\
    (n <= sends st <= 4 * n)%nat /\
    sends_current_sample None (trace st).
Proof.
  intros w arg_interval n st H. unfold main in H.
  destruct (iterations_inv _ _ _ _ _ H)
    as (Hc & Hn & ext & Ht & Hcol & Hpost & Hcur & _).
  cbn [init collects sends trace app] in *. subst ext.
  rewrite Hcol, Hpost, Nat.sub_0_r. repeat split; auto; lia.
Qed.

(** Two iterations with one failed delivery: two samples, three calls of
    [post_json]. *)
Lemma main_samples_and_sends_witness :
  exists st,
    main Examples.one_failure 10 2 = Py.Ok st /\
    collects st = 2%nat /\
    length (posted (trace st)) = sends st.
Proof.
  destruct (main Examples.one_failure 10 2) as [st|e] eqn:H.
  - destruct (main_samples_and_sends _ _ _ _ H) as (Hc & _ & Hp & _).
    exists st. auto.
  - vm_compute in H. discriminate H.
Defined.

(** X10: the calls of [time.sleep] that [main] makes itself are for 2, 4
    or 8 seconds or for the interval, which is at least 3 whatever
    [--interval] says, and they add up to at least two seconds in every
    iteration.  (The pause of [cpu_pct] between its two samples is part of
    collecting a sample.) *)
Theorem main_sleeps :
  forall w arg_interval n st,
    main w arg_interval n = Py.Ok st ->
    Forall (fun s => s = 2 \/ s = 4 \/ s = 8 \/
                     (s = Z.max 3 arg_interval /\ 3 <= s))
           (sleeps (trace st)) /\
    2 * Z.of_nat n <= slept_seconds (trace st).
Proof.
  intros w arg_interval n st H. unfold main in H.
  destruct (iterations_inv _ _ _ _ _ H)
    as (_ & _ & ext & Ht & _ & _ & _ & Hsl & Hsum).
  cbn [init trace app] in Ht. subst ext. split.
  - eapply Forall_impl; [exact Hsl|]. intros s. simpl. lia.
  - apply Hsum. lia.
Qed.

(** With [--interval 1] the agent still sleeps three seconds after a
    delivery. *)
Lemma main_sleeps_witness :
  exists st,
    main Examples.one_failure 1 2 = Py.Ok st /\
    sleeps (trace st) = [2; 3] /\
    2 * 2 <= slept_seconds (trace st).
Proof.
  destruct (main Examples.one_failure 1 2) as [st|e] eqn:H.
  - destruct (main_sleeps _ _ _ _ H) as (_ & Hs).
    exists st. split; [reflexivity|]. split; [|exact Hs].
    vm_compute in H. apply Ok_inj in H. subst st. reflexivity.
  - vm_compute in H. discriminate H.
Defined.

(** X11: [collect] is called outside the [try]: when the call for sample
    [n] raises, the loop is left with that exception after [n] complete
    iterations, and nothing is sent or slept any more. *)
Theorem collect_failure_ends_main :
  forall w arg_interval n st e,
    main w arg_interval n = Py.Ok st ->
    samples w n = Py.Raise e ->
    forall m, (n < m)%nat -> main w arg_interval m = Py.Raise e.
Proof.
  intros w arg_interval n st e H Hs m Hm. unfold main in *.
  replace m with (n + S (m - n - 1))%nat by lia.
  rewrite iterations_add, H.
  cbn [mbind result_bind Py.bind iterations].
  destruct (iterations_inv _ _ _ _ _ H) as (Hc & _).
  cbn [init collects] in Hc.
  unfold cycle, collect. rewrite Hc, Nat.add_0_l, Hs. reflexivity.
Qed.

(** The second sample cannot be taken: the agent stops, however long it
    is left running. *)
Lemma collect_failure_ends_main_witness :
  main Worlds.second_sample_fails 10 5 = Py.Raise Py.ValueError.
Proof.
  eapply (collect_failure_ends_main Worlds.second_sample_fails 10 1);
    [reflexivity|reflexivity|lia].
Defined.



End Loop.

(** ** Properties of the probes *)

Section Numerals.
Import Digits.

Lemma of_uint_acc_val d :
  forall acc, Zpos (Pos.of_uint_acc d acc) = uint_val (Zpos acc) d.
Proof.
  induction d; intros acc; simpl; try reflexivity; rewrite IHd; f_equal; lia.
Qed.

Lemma of_uint_val d : Z.of_uint d = uint_val 0 d.
Proof.
  unfold Z.of_uint.
  induction d; simpl; try reflexivity; try apply of_uint_acc_val.
  exact IHd.
Qed.

Lemma parse_digits_uint d :
  forall acc,
    Py.parse_digits acc true
      (list_ascii_of_string (NilEmpty.string_of_uint d))
    = Some (uint_val acc d).
Proof.
  induction d; intros acc; simpl; try reflexivity; rewrite IHd; f_equal; f_equal; lia.
Qed.

Lemma parse_digits_numeral d :
  Py.parse_digits 0 false (list_ascii_of_string (NilZero.string_of_uint d))
  = Some (uint_val 0 d).
Proof.
  destruct d; simpl; try reflexivity; rewrite parse_digits_uint; reflexivity.
Qed.

Lemma numeral_chars_uint d :
  Forall (fun c => numeral_char c = true)
         (list_ascii_of_string (NilEmpty.string_of_uint d)).
Proof. induction d; simpl; constructor; auto. Qed.

(** The characters of [str(n)]: not empty, digits and a minus sign. *)
Lemma numeral_chars_int n :
  Forall (fun c => numeral_char c = true)
         (list_ascii_of_string (Py.str_of_int n)) /\
  list_ascii_of_string (Py.str_of_int n) <> [].
Proof.
  unfold Py.str_of_int, NilZero.string_of_int.
  assert (Hu : forall d,
             Forall (fun c => numeral_char c = true)
                    (list_ascii_of_string (NilZero.string_of_uint d)) /\
             list_ascii_of_string (NilZero.string_of_uint d) <> []).
  { intros d. split.
    - destruct d; try apply (numeral_chars_uint (Decimal.D0 d));
        try (simpl; constructor; [reflexivity|apply numeral_chars_uint]).
      simpl. constructor; [reflexivity|constructor].
    - destruct d; simpl; discriminate. }
  destruct (Z.to_int n) as [d|d].
  - apply Hu.
  - simpl. split; [|discriminate].
    constructor; [reflexivity|apply Hu].
Qed.

Lemma numeral_char_not_space c :
  numeral_char c = true ->
  Py.is_space c = false /\ Py.is_literal_space c = false.
Proof.
  destruct c as [[|] [|] [|] [|] [|] [|] [|] [|]]; vm_compute;
    intros H; try discriminate H; split; reflexivity.
Qed.

Lemma lstrip_spaces space ws l :
  Forall (fun c => space c = true) ws ->
  Py.lstrip space (ws ++ l) = Py.lstrip space l.
Proof.
  induction 1 as [|c ws Hc _ IH]; [reflexivity|]. simpl. now rewrite Hc.
Qed.

Lemma lstrip_keep space l :
  Forall (fun c => space c = false) l -> Py.lstrip space l = l.
Proof. destruct 1 as [|c l Hc _]; [reflexivity|]. simpl. now rewrite Hc. Qed.

(** Stripping removes the white space that follows a text without white
    space, and nothing else. *)
Lemma strip_chars_tail space l ws :
  Forall (fun c => space c = false) l ->
  Forall (fun c => space c = true) ws ->
  Py.strip_chars space (l ++ ws) = l.
Proof.
  intros Hl Hws. unfold Py.strip_chars.
  destruct l as [|c l].
  - simpl. rewrite <- (app_nil_r ws), lstrip_spaces by assumption. simpl.
    reflexivity.
  - inversion Hl as [|? ? Hc Hl']. subst.
    cbn [app Py.lstrip]. rewrite Hc. change (c :: l ++ ws) with ((c :: l) ++ ws).
    rewrite rev_app_distr, lstrip_spaces by (now apply Forall_rev).
    rewrite lstrip_keep by (now apply Forall_rev).
    apply rev_involutive.
Qed.

Lemma list_ascii_of_string_app a b :
  list_ascii_of_string (a +:+ b)
    = list_ascii_of_string a ++ list_ascii_of_string b.
Proof. induction a as [|c a IH]; simpl; [reflexivity|now rewrite IH]. Qed.

(** Reading back a printed integer. *)
Lemma int_of_str_str_of_int n : Py.int_of_str (Py.str_of_int n) = Py.Ok n.
Proof.
  unfold Py.int_of_str.
  destruct (numeral_chars_int n) as [Hchars _].
  rewrite <- (app_nil_r (list_ascii_of_string (Py.str_of_int n))).
  rewrite strip_chars_tail;
    [|eapply Forall_impl; [exact Hchars|];
      intros c Hc; apply (numeral_char_not_space c Hc)
     |constructor].
  unfold Py.str_of_int, NilZero.string_of_int.
  rewrite <- (DecimalZ.of_to n) at 2.
  destruct (Z.to_int n) as [d|d]; cbn [Z.of_int].
  - rewrite of_uint_val.
    destruct d; simpl; try reflexivity; rewrite parse_digits_uint; reflexivity.
  - rewrite of_uint_val. cbn [list_ascii_of_string].
    replace (Ascii.eqb "-" "+") with false by reflexivity.
    replace (Ascii.eqb "-" "-") with true by reflexivity.
    rewrite parse_digits_numeral. reflexivity.
Qed.

(** The same for a file that holds the integer and a line feed, as read
    by [read]. *)
Lemma int_of_str_strip_line n :
  Py.int_of_str (Py.strip (Py.str_of_int n +:+ String "010" EmptyString))
    = Py.Ok n.
Proof.
  unfold Py.strip. rewrite list_ascii_of_string_app.
  destruct (numeral_chars_int n) as [Hchars _].
  rewrite strip_chars_tail;
    [|eapply Forall_impl; [exact Hchars|];
      intros c Hc; apply (numeral_char_not_space c Hc)
     |repeat constructor].
  rewrite string_of_list_ascii_of_string. apply int_of_str_str_of_int.
Qed.

End Numerals.

Section CpuProbe.
Import Agent Spec Hosts.

Lemma int_of_str_raise s e : Py.int_of_str s = Py.Raise e -> e = Py.ValueError.
Proof.
  unfold Py.int_of_str.
  destruct (match Py.strip_chars _ _ with [] => _ | _ :: _ => _ end);
    congruence.
Qed.

Lemma ints_of_raise parts bad :
  In bad parts ->
  Py.int_of_str bad = Py.Raise Py.ValueError ->
  ints_of parts = Py.Raise Py.ValueError.
Proof.
  induction parts as [|s parts IH]; intros Hin Hbad; [destruct Hin|].
  cbn [ints_of mbind result_bind Py.bind].
  destruct (Py.int_of_str s) as [n|e] eqn:Hs.
  - destruct Hin as [->|Hin]; [congruence|]. now rewrite IH.
  - now rewrite (int_of_str_raise _ _ Hs).
Qed.

Lemma nth_nonneg (ns : list Z) i :
  Forall (fun n => 0 <= n) ns -> 0 <= nth i ns 0.
Proof.
  intros H. revert i. induction H as [|n ns Hn _ IH]; intros [|i]; simpl;
    auto; lia.
Qed.

(** X13: the sample is made of the first eight integer fields after the
    label of the first line: further fields (guest, guest_nice) do not
    count, missing ones count as zero; with nonnegative fields the idle
    part is at most the total. *)
Theorem read_proc_stat_fields :
  forall e text ns,
    read_file e "/proc/stat" = Some text ->
    ints_of (tail (Py.split (Py.readline text))) = Py.Ok ns ->
    let field i := nth i ns 0 in
    _read_proc_stat e
      = Py.Ok (field 0%nat + field 1%nat + field 2%nat + field 3%nat +
               field 4%nat + field 5%nat + field 6%nat + field 7%nat,
               field 3%nat + field 4%nat) /\
    (Forall (fun n => 0 <= n) ns ->
     forall total idle_all,
       _read_proc_stat e = Py.Ok (total, idle_all) ->
       0 <= idle_all <= total).
Proof.
  intros e text ns Hread Hints field.
  assert (Heq : _read_proc_stat e
      = Py.Ok (field 0%nat + field 1%nat + field 2%nat + field 3%nat +
               field 4%nat + field 5%nat + field 6%nat + field 7%nat,
               field 3%nat + field 4%nat)).
  { unfold _read_proc_stat. rewrite Hread, Hints.
    cbn [mbind result_bind Py.bind]. subst field.
    destruct ns as [|a [|b [|c [|d [|x [|f [|g [|h ns]]]]]]]];
      simpl; f_equal; f_equal; lia. }
  split; [exact Heq|].
  intros Hpos total idle_all Hres. rewrite Heq in Hres.
  injection Hres as <- <-. subst field.
  pose proof (nth_nonneg ns 0 Hpos). pose proof (nth_nonneg ns 1 Hpos).
  pose proof (nth_nonneg ns 2 Hpos). pose proof (nth_nonneg ns 3 Hpos).
  pose proof (nth_nonneg ns 4 Hpos). pose proof (nth_nonneg ns 5 Hpos).
  pose proof (nth_nonneg ns 6 Hpos). pose proof (nth_nonneg ns 7 Hpos).
  lia.
Qed.

(** The first line of the typical host: ten fields, eight of them used. *)
Lemma read_proc_stat_fields_witness :
  _read_proc_stat typical = Py.Ok (100, 80).
Proof.
  apply (proj1 (read_proc_stat_fields typical _ [10; 0; 10; 70; 10; 0; 0; 0; 0; 0]
                  eq_refl eq_refl)).
Defined.

(** X14: when at either sample [/proc/stat] cannot be read, or its first
    line has a field after the label that is not an integer (be it beyond
    the eight that are used), [cpu_pct] is 0.0. *)
Theorem cpu_pct_zero_on_bad_stat :
  forall e1 e2,
    bad_stat e1 \/ bad_stat e2 ->
    cpu_pct e1 e2 = S754_zero false.
Proof.
  intros e1 e2 Hbad.
  assert (Hraise : forall e, bad_stat e -> exists x, _read_proc_stat e = Py.Raise x).
  { intros e [Hnone|(text & bad & Hread & Hin & Hbad')]; unfold _read_proc_stat.
    - rewrite Hnone. eauto.
    - rewrite Hread, (ints_of_raise _ _ Hin Hbad'). eauto. }
  unfold cpu_pct. destruct Hbad as [H|H]; destruct (Hraise _ H) as [x Hx].
  - now rewrite Hx.
  - rewrite Hx. now destruct (_read_proc_stat e1).
Qed.

(** The tenth field of the second sample reads [n/a]. *)
Lemma cpu_pct_zero_on_bad_stat_witness :
  cpu_pct typical odd_files = S754_zero false.
Proof.
  apply cpu_pct_zero_on_bad_stat. right. right.
  exists ("cpu  10 0 10 70 10 0 0 0 0 n/a" +:+ LF), "n/a".
  split; [reflexivity|]. split; [|reflexivity].
  vm_compute. tauto.
Defined.

(** X15: when the idle counter is the same in both samples, in particular
    when the two samples are identical, [cpu_pct] is 100.0. *)
Theorem cpu_pct_idle_unchanged :
  forall e1 e2 t1 t2 idle,
    _read_proc_stat e1 = Py.Ok (t1, idle) ->
    _read_proc_stat e2 = Py.Ok (t2, idle) ->
    cpu_pct e1 e2 = Py.float_of_Z 100.
Proof.
  intros e1 e2 t1 t2 idle H1 H2. unfold cpu_pct. rewrite H1, H2.
  cbn [mbind result_bind Py.bind cpu_pct_of_samples].
  rewrite Z.sub_diag. unfold Py.int_truediv.
  destruct (Z.eqb_spec (Z.max (t2 - t1) 1) 0) as [?|_]; [lia|].
  destruct (Z.ltb_spec (Z.max (t2 - t1) 1) 0) as [?|_]; [lia|].
  reflexivity.
Qed.

(** Nothing happened on the host between the two samples. *)
Lemma cpu_pct_idle_unchanged_witness :
  cpu_pct typical typical = Py.float_of_Z 100.
Proof.
  apply (cpu_pct_idle_unchanged typical typical 100 100 80); reflexivity.
Defined.

End CpuProbe.

Section NetworkProbes.
Import Agent Spec Hosts.

Lemma existsb_eqb_In x l : existsb (String.eqb x) l = true <-> In x l.
Proof.
  rewrite existsb_exists. split.
  - intros (y & Hin & Heq). apply String.eqb_eq in Heq. now subst.
  - intros Hin. exists x. split; [assumption|apply String.eqb_refl].
Qed.

Lemma list_index_first x pre rest :
  ~ In x pre -> Py.list_index x (pre ++ x :: rest) = Py.Ok (length pre).
Proof.
  induction pre as [|y pre IH]; intros Hnin; simpl.
  - now rewrite String.eqb_refl.
  - destruct (String.eqb_spec y x) as [->|_]; [exfalso; apply Hnin; now left|].
    rewrite IH; [reflexivity|]. intros Hin. apply Hnin. now right.
Qed.

(** X16: [default_iface] is the token that follows the first [dev] of the
    default route; it is the empty text when there is no [dev] token and
    when [dev] is the last token. *)
Theorem default_iface_after_dev :
  forall e out,
    check_output e ["ip"; "route"; "show"; "default"] = Py.Ok out ->
    (forall pre x post,
       Py.split (Py.strip out) = pre ++ "dev" :: x :: post ->
       ~ In "dev" pre ->
       default_iface e = x) /\
    (~ In "dev" (Py.split (Py.strip out)) -> default_iface e = "") /\
    (forall pre,
       Py.split (Py.strip out) = pre ++ ["dev"] ->
       ~ In "dev" pre ->
       default_iface e = "").
Proof.
  intros e out Hout. unfold default_iface, sh. rewrite Hout.
  cbn [mbind result_bind Py.bind]. split; [|split].
  - intros pre x post Hsplit Hnin. rewrite Hsplit.
    replace (existsb (String.eqb "dev") (pre ++ "dev" :: x :: post)) with true
      by (symmetry; apply existsb_eqb_In, in_or_app; right; now left).
    rewrite (list_index_first "dev" pre (x :: post) Hnin).
    cbn [mbind result_bind Py.bind]. unfold Py.index.
    rewrite nth_error_app2 by lia.
    replace (length pre + 1 - length pre)%nat with 1%nat by lia. reflexivity.
  - intros Hnin.
    destruct (existsb (String.eqb "dev") (Py.split (Py.strip out))) eqn:Hex;
      [|reflexivity].
    apply existsb_eqb_In in Hex. contradiction.
  - intros pre Hsplit Hnin. rewrite Hsplit.
    replace (existsb (String.eqb "dev") (pre ++ ["dev"])) with true
      by (symmetry; apply existsb_eqb_In, in_or_app; right; now left).
    rewrite (list_index_first "dev" pre [] Hnin).
    cbn [mbind result_bind Py.bind]. unfold Py.index.
    rewrite (proj2 (nth_error_None _ _)); [reflexivity|].
    rewrite length_app. simpl. lia.
Qed.

(** The default route of the typical host goes through [eth0]. *)
Lemma default_iface_after_dev_witness : default_iface typical = "eth0".
Proof.
  apply (proj1 (default_iface_after_dev typical _ eq_refl)
           ["default"; "via"; "10.0.0.1"] "eth0"
           ["proto"; "dhcp"; "metric"; "100"]).
  - reflexivity.
  - simpl. intros [H|[H|[H|[]]]]; discriminate H.
Defined.

Lemma split_chars_no_space l :
  forall cur,
    Forall (fun c => Py.is_space c = false) cur ->
    Forall no_space (Py.split_chars cur l).
Proof.
  assert (Htok : forall cur, Forall (fun c => Py.is_space c = false) cur ->
                             no_space (string_of_list_ascii (rev cur))).
  { intros cur Hcur. unfold no_space.
    rewrite list_ascii_of_string_of_list_ascii. now apply Forall_rev. }
  induction l as [|c l IH]; intros cur Hcur; simpl.
  - destruct cur; constructor; [now apply Htok|constructor].
  - destruct (Py.is_space c) eqn:Hc.
    + destruct cur; [now apply IH|].
      constructor; [now apply Htok|]. apply IH. constructor.
    + apply IH. now constructor.
Qed.

Lemma until_char_spec sep l :
  existsb (Ascii.eqb sep) (Py.until_char sep l) = false /\
  forall P : ascii -> Prop, Forall P l -> Forall P (Py.until_char sep l).
Proof.
  induction l as [|c l [IH1 IH2]]; simpl; [split; auto|].
  destruct (Ascii.eqb_spec c sep) as [->|Hne]; simpl.
  - split; auto.
  - split.
    + rewrite IH1. destruct (Ascii.eqb_spec sep c) as [Heq|_];
        [exfalso; apply Hne; now symmetry|reflexivity].
    + intros P HP. inversion HP; subst. constructor; auto.
Qed.

(** X17: the text [ip_of] returns has no slash and no white space. *)
Theorem ip_of_is_an_address_token :
  forall e iface,
    Py.has_char "/" (ip_of e iface) = false /\ no_space (ip_of e iface).
Proof.
  intros e iface. unfold ip_of.
  destruct (String.eqb iface ""); [split; [reflexivity|constructor]|].
  unfold sh. destruct (check_output e _) as [out|x];
    [|split; [reflexivity|constructor]].
  cbn [mbind result_bind Py.bind Py.try_except]. unfold Py.index.
  destruct (nth_error (Py.split (Py.strip out)) 3) as [tok|] eqn:Htok;
    [|split; [reflexivity|constructor]].
  cbn [mbind result_bind Py.bind Py.try_except].
  unfold Py.split_first, Py.has_char, no_space.
  rewrite list_ascii_of_string_of_list_ascii.
  destruct (until_char_spec "/" (list_ascii_of_string tok)) as [H1 H2].
  split; [exact H1|]. apply H2.
  apply nth_error_In in Htok.
  pose proof (split_chars_no_space (list_ascii_of_string (Py.strip out)) []
                (List.Forall_nil _)) as Hall.
  rewrite List.Forall_forall in Hall. apply Hall. exact Htok.
Qed.

Lemma iface_given iface : iface <> "" -> String.eqb iface "" = false.
Proof. intros H. now apply String.eqb_neq. Qed.

(** X18: when the four counter files of the interface hold an integer
    followed by a line feed, as the kernel writes them, [nic_stats] returns
    these four integers. *)
Theorem nic_stats_reads_counters :
  forall e iface rb tb rp tp,
    iface <> "" ->
    read_file e (counter_file iface "rx_bytes") = Some (Py.str_of_int rb +:+ LF) ->
    read_file e (counter_file iface "tx_bytes") = Some (Py.str_of_int tb +:+ LF) ->
    read_file e (counter_file iface "rx_packets") = Some (Py.str_of_int rp +:+ LF) ->
    read_file e (counter_file iface "tx_packets") = Some (Py.str_of_int tp +:+ LF) ->
    nic_stats e iface = Py.Ok (rb, tb, rp, tp).
Proof.
  intros e iface rb tb rp tp Hif Hrb Htb Hrp Htp.
  unfold nic_stats, read. rewrite (iface_given _ Hif).
  unfold counter_file in *. rewrite Hrb, Htb, Hrp, Htp.
  unfold LF. rewrite !int_of_str_strip_line. reflexivity.
Qed.

(** The counters of [eth0] on the typical host. *)
Lemma nic_stats_reads_counters_witness :
  nic_stats typical "eth0" = Py.Ok (1000, 2000, 10, 20).
Proof.
  apply nic_stats_reads_counters; [discriminate|reflexivity..].
Defined.

Lemma nic_stats_failure_modes_aux e iface :
  ((forall name, read_file e (counter_file iface name) = None) ->
   nic_stats e iface = Py.Ok (0, 0, 0, 0)) /\
  (forall x, nic_stats e iface = Py.Raise x ->
             x = Py.ValueError /\ iface <> "").
Proof.
  split.
  - intros Hnone. unfold nic_stats, read.
    destruct (String.eqb iface ""); [reflexivity|].
    unfold counter_file in Hnone. rewrite !Hnone. reflexivity.
  - intros x. unfold nic_stats.
    destruct (String.eqb_spec iface "") as [->|Hne]; [discriminate|].
    intros H. split; [|assumption].
    repeat match type of H with
           | context [Py.int_of_str ?s] =>
               let Hs := fresh "Hs" in
               destruct (Py.int_of_str s) eqn:Hs;
               cbn [mbind result_bind Py.bind] in H;
               [|injection H as <-; now apply (int_of_str_raise _ _ Hs)]
           end.
    discriminate H.
Qed.

(** X19: when none of the counter files can be opened (the interface is
    gone), [nic_stats] returns four zeros; and the only exception it can
    raise is [ValueError]. *)
Theorem nic_stats_failure_modes :
  forall e iface,
    ((forall name, read_file e (counter_file iface name) = None) ->
     nic_stats e iface = Py.Ok (0, 0, 0, 0)) /\
    (forall x, nic_stats e iface = Py.Raise x ->
               x = Py.ValueError /\ iface <> "").
Proof. exact nic_stats_failure_modes_aux. Qed.

(** A host without [/sys/class/net/eth0]. *)
Lemma nic_stats_failure_modes_witness :
  nic_stats Examples.stat_before "eth0" = Py.Ok (0, 0, 0, 0).
Proof.
  apply (proj1 (nic_stats_failure_modes Examples.stat_before "eth0")).
  intros name. reflexivity.
Defined.

End NetworkProbes.

Section Identity.
Import Agent Sampler Builtins Hosts.

Lemma substring_length_le n s : (String.length (substring 0 n s) <= n)%nat.
Proof.
  revert s. induction n as [|n IH]; intros [|c s]; simpl; try lia.
  specialize (IH s). lia.
Qed.

Lemma append_length a b :
  String.length (a +:+ b) = (String.length a + String.length b)%nat.
Proof. induction a as [|c a IH]; simpl; [reflexivity|now rewrite IH]. Qed.

(** X20: the device id is never the empty text.  A non-empty [--device-id]
    is used as it is; otherwise a readable, non-empty machine id gives
    [dev-] and its first twelve characters, sixteen characters at most;
    otherwise the host name is used, or [unknown]. *)
Theorem device_id_precedence :
  forall e hostname prefer,
    device_id e hostname prefer <> "" /\
    (forall p, prefer = Some p -> p <> "" -> device_id e hostname prefer = p) /\
    (prefer = None \/ prefer = Some "" ->
     let mid := read e "/etc/machine-id" "" in
     (mid <> "" ->
      device_id e hostname prefer = "dev-" +:+ prefix_of 12 mid /\
      (String.length (device_id e hostname prefer) <= 16)%nat) /\
     (mid = "" -> hostname <> "" -> device_id e hostname prefer = hostname) /\
     (mid = "" -> hostname = "" -> device_id e hostname prefer = "unknown")).
Proof.
  intros e hostname prefer.
  assert (Hfb :
    let mid := read e "/etc/machine-id" "" in
    let fallback :=
      if negb (String.eqb mid "") then "dev-" +:+ prefix_of 12 mid
      else if negb (String.eqb hostname "") then hostname else "unknown" in
    fallback <> "" /\
    (mid <> "" -> fallback = "dev-" +:+ prefix_of 12 mid /\
                  (String.length fallback <= 16)%nat) /\
    (mid = "" -> hostname <> "" -> fallback = hostname) /\
    (mid = "" -> hostname = "" -> fallback = "unknown")).
  { cbn zeta.
    destruct (String.eqb_spec (read e "/etc/machine-id" "") "") as [Hm|Hm];
      cbn [negb].
    - destruct (String.eqb_spec hostname "") as [Hh|Hh]; cbn [negb].
      + split; [discriminate|]. repeat split; intros; congruence.
      + split; [assumption|]. repeat split; intros; congruence.
    - split; [discriminate|]. split; [|split; intros; congruence].
      intros _. split; [reflexivity|].
      rewrite append_length.
      pose proof (substring_length_le 12 (read e "/etc/machine-id" "")) as Hl.
      unfold prefix_of. simpl. lia. }
  cbn zeta in Hfb. destruct Hfb as (Hne & Hmid & Hhost & Hunk).
  unfold device_id. split; [|split].
  - destruct prefer as [p|]; [|exact Hne].
    destruct (String.eqb_spec p "") as [->|Hp]; cbn [negb]; assumption.
  - intros p -> Hp. now rewrite (iface_given _ Hp).
  - intros [-> | ->]; cbn [String.eqb negb]; auto.
Qed.

(** The typical host, started without [--device-id]. *)
Lemma device_id_precedence_witness :
  device_id typical "raspberrypi" None = "dev-0123456789ab".
Proof.
  destruct (device_id_precedence typical "raspberrypi" None)
    as (_ & _ & H).
  destruct (H (or_introl eq_refl)) as ((Heq & _) & _); [discriminate|].
  rewrite Heq. reflexivity.
Defined.

End Identity.

Section SystemProbes.
Import Agent Sampler Builtins Hosts.

Lemma split_sep_without_sep sep l :
  forall cur,
    existsb (Ascii.eqb sep) l = false ->
    split_sep_chars sep cur l = [string_of_list_ascii (rev cur ++ l)].
Proof.
  induction l as [|c l IH]; intros cur H; simpl in *.
  - now rewrite app_nil_r.
  - apply orb_false_iff in H as [Hc Hl].
    rewrite Ascii.eqb_sym, Hc, (IH _ Hl). simpl. now rewrite <- app_assoc.
Qed.

(** A line without a colon stops the loop of [mem_pct]. *)
Lemma meminfo_line_without_colon lines line :
  In line lines ->
  Py.has_char ":" line = false ->
  forall mm, exists x, meminfo lines mm = Py.Raise x.
Proof.
  intros Hin Hno. induction lines as [|l lines IH]; intros mm; [destruct Hin|].
  cbn [meminfo].
  destruct Hin as [->|Hin].
  - unfold split_sep. rewrite (split_sep_without_sep ":" _ [] Hno).
    cbn. eauto.
  - destruct (Py.index (split_sep ":" l) 0) as [k|x]; [|cbn; eauto].
    destruct (Py.index (split_sep ":" l) 1) as [v|x]; [|cbn; eauto].
    cbn [mbind result_bind Py.bind].
    destruct (Py.index (Py.split (Py.strip v)) 0) as [tok|x]; [|cbn; eauto].
    cbn [mbind result_bind Py.bind].
    destruct (Py.int_of_str tok) as [n|x]; [|cbn; eauto].
    cbn [mbind result_bind Py.bind]. apply (IH Hin).
Qed.

Lemma iter_pos_inv {A} (P : A -> Prop) (f : A -> A) :
  (forall x, P x -> P (f x)) ->
  forall n x, P x -> P (SpecFloat.iter_pos f n x).
Proof.
  intros Hf. induction n as [n IH|n IH|]; intros x Hx; simpl; auto.
Qed.

Lemma shr_1_nonneg mrs : 0 <= shr_m mrs -> 0 <= shr_m (shr_1 mrs).
Proof.
  destruct mrs as [m r s']. simpl. intros Hm.
  destruct m as [|[p|p|]|[p|p|]]; simpl; lia.
Qed.

Lemma shr_fexp_nonneg m e l :
  0 <= m -> 0 <= shr_m (fst (shr_fexp Py.prec Py.emax m e l)).
Proof.
  intros Hm. unfold shr_fexp, shr.
  assert (H0 : 0 <= shr_m (shr_record_of_loc m l))
    by (destruct l as [|[| |]]; exact Hm).
  destruct (fexp Py.prec Py.emax (Zdigits2 m + e) - e); simpl; auto.
  apply iter_pos_inv; [exact shr_1_nonneg|exact H0].
Qed.

Lemma binary_round_aux_not_nan sx mx ex lx :
  0 <= mx -> binary_round_aux Py.prec Py.emax sx mx ex lx <> S754_nan.
Proof.
  intros Hm. unfold binary_round_aux.
  pose proof (shr_fexp_nonneg mx ex lx Hm) as H1.
  destruct (shr_fexp Py.prec Py.emax mx ex lx) as [mrs' e'].
  cbn [fst] in H1.
  assert (H2 : 0 <= round_nearest_even (shr_m mrs') (loc_of_shr_record mrs')).
  { unfold round_nearest_even.
    destruct (loc_of_shr_record mrs') as [|[| |]];
      try destruct (Z.even (shr_m mrs')); lia. }
  pose proof (shr_fexp_nonneg _ e' loc_Exact H2) as H3.
  destruct (shr_fexp Py.prec Py.emax _ e' loc_Exact) as [mrs'' e''].
  cbn [fst] in H3.
  destruct (shr_m mrs'') as [|p|p]; [discriminate| |lia].
  destruct (e'' <=? Py.emax - Py.prec); discriminate.
Qed.

(** Converting an integer never gives a NaN. *)
Lemma float_of_Z_not_nan n : Py.float_of_Z n <> S754_nan.
Proof.
  unfold Py.float_of_Z, binary_normalize, binary_round.
  destruct n as [|p|p]; [discriminate| |];
    destruct (shl_align _ _ _) as [mz ez];
    apply binary_round_aux_not_nan; lia.
Qed.

(** X21: when [/proc/meminfo] has a line without a colon, [mem_pct] is
    0.0, whatever the other lines say. *)
Theorem mem_pct_zero_on_line_without_colon :
  forall e text line,
    read_file e "/proc/meminfo" = Some text ->
    In line (file_lines text) ->
    Py.has_char ":" line = false ->
    mem_pct e = S754_zero false.
Proof.
  intros e text line Hread Hin Hno. unfold mem_pct. rewrite Hread.
  destruct (meminfo_line_without_colon _ _ Hin Hno ∅) as [x ->].
  reflexivity.
Qed.

(** The last line of the file reads [end]. *)
Lemma mem_pct_zero_on_line_without_colon_witness :
  mem_pct odd_files = S754_zero false.
Proof.
  eapply (mem_pct_zero_on_line_without_colon odd_files _ ("end" +:+ LF));
    [reflexivity| |reflexivity].
  vm_compute. tauto.
Defined.

(** X22: when the lines of [/proc/meminfo] parse and none of them is
    [MemAvailable] (kernels before 3.14), [mem_pct] is 100.0, whatever
    [MemTotal] and [MemFree] are. *)
Theorem mem_pct_without_memavailable :
  forall e text mm tot,
    read_file e "/proc/meminfo" = Some text ->
    meminfo (file_lines text) ∅ = Py.Ok mm ->
    mm !! "MemAvailable" = None ->
    float_of_int (default 1 (mm !! "MemTotal")) = Py.Ok tot ->
    mem_pct e = Py.float_of_Z 100.
Proof.
  intros e text mm tot Hread Hmm Hava Htot. unfold mem_pct.
  rewrite Hread, Hmm. cbn [mbind result_bind Py.bind].
  unfold mem_pct_of. rewrite Htot, Hava.
  cbn [mbind result_bind Py.bind].
  assert (Hnan : tot <> S754_nan).
  { unfold float_of_int in Htot.
    pose proof (float_of_Z_not_nan (default 1 (mm !! "MemTotal"))) as Hn.
    destruct (Py.float_of_Z (default 1 (mm !! "MemTotal")));
      try discriminate Htot; injection Htot as <-; congruence. }
  assert (Hinf : forall sg, tot <> S754_infinity sg).
  { intros sg. unfold float_of_int in Htot.
    destruct (Py.float_of_Z (default 1 (mm !! "MemTotal")));
      try discriminate Htot; injection Htot as <-; congruence. }
  destruct tot as [sg|sg| |sg m ex];
    [destruct sg; reflexivity|now destruct (Hinf sg)|congruence|].
  destruct sg; [reflexivity|].
  unfold max_with_one, flt.
  destruct (SFltb (S754_finite false m ex) (Py.float_of_Z 1)); reflexivity.
Qed.

(** The old kernel of the examples, with 900 of 1000 kB free. *)
Lemma mem_pct_without_memavailable_witness :
  mem_pct old_kernel = Py.float_of_Z 100.
Proof.
  destruct (meminfo
              (file_lines ("MemTotal:        1000 kB" +:+ LF +:+
                           "MemFree:          900 kB" +:+ LF)) ∅)
    as [mm|x] eqn:Hmm.
  - apply (mem_pct_without_memavailable old_kernel _ mm
             (Py.float_of_Z 1000) eq_refl Hmm).
    + vm_compute in Hmm. apply Ok_inj in Hmm. subst mm. reflexivity.
    + vm_compute in Hmm. apply Ok_inj in Hmm. subst mm. reflexivity.
  - vm_compute in Hmm. discriminate Hmm.
Defined.

Lemma numeral_char_not_percent c :
  Digits.numeral_char c = true -> Ascii.eqb "%" c = false.
Proof.
  destruct c as [[|] [|] [|] [|] [|] [|] [|] [|]]; vm_compute;
    intros H; try discriminate H; reflexivity.
Qed.

Lemma rstrip_percent n :
  rstrip_char "%" (Py.str_of_int n +:+ "%") = Py.str_of_int n.
Proof.
  unfold rstrip_char. rewrite list_ascii_of_string_app, rev_app_distr.
  destruct (numeral_chars_int n) as [Hchars _].
  change (rev (list_ascii_of_string "%")) with ["%"%char].
  rewrite (lstrip_spaces (Ascii.eqb "%") ["%"%char])
    by (repeat constructor).
  rewrite lstrip_keep.
  - rewrite rev_involutive. apply string_of_list_ascii_of_string.
  - apply Forall_rev. eapply Forall_impl; [exact Hchars|].
    exact numeral_char_not_percent.
Qed.

(** X23: [disk_pct] is the integer before the percent sign in the fifth
    field of the second line of the output of [df]; an output of fewer
    than two lines gives 0. *)
Theorem disk_pct_reads_capacity :
  forall e mount out,
    check_output e ["df"; "-P"; mount] = Py.Ok out ->
    (forall line n,
       nth_error (splitlines (Py.strip out)) 1 = Some line ->
       nth_error (Py.split line) 4 = Some (Py.str_of_int n +:+ "%") ->
       disk_pct e mount = n) /\
    (nth_error (splitlines (Py.strip out)) 1 = None -> disk_pct e mount = 0).
Proof.
  intros e mount out Hout. unfold disk_pct, sh. rewrite Hout.
  cbn [mbind result_bind Py.bind]. unfold Py.index. split.
  - intros line n Hline Htok. rewrite Hline.
    cbn [mbind result_bind Py.bind]. rewrite Htok.
    cbn [mbind result_bind Py.bind].
    now rewrite rstrip_percent, int_of_str_str_of_int.
  - intros ->. reflexivity.
Qed.

(** The root file system of the typical host is 42% full. *)
Lemma disk_pct_reads_capacity_witness : disk_pct typical "/" = 42.
Proof.
  apply (proj1 (disk_pct_reads_capacity typical "/" _ eq_refl)
           "/dev/sda1 1000 420 580 42% /" 42);
    reflexivity.
Defined.

(** X24: [loadavg] always has three entries, and they are all 0.0 as soon
    as [/proc/loadavg] has fewer than three fields or one of the first
    three is not a float, even when the others could be read. *)
Theorem loadavg_all_or_nothing :
  forall e,
    let zeros := [S754_zero false; S754_zero false; S754_zero false] in
    let fields := Py.split (read e "/proc/loadavg" "") in
    length (loadavg e) = 3%nat /\
    ((length fields < 3)%nat -> loadavg e = zeros) /\
    (forall a b c rest x,
       fields = a :: b :: c :: rest ->
       float_of_str a = Py.Raise x \/ float_of_str b = Py.Raise x \/
       float_of_str c = Py.Raise x ->
       loadavg e = zeros).
Proof.
  intros e. cbn zeta. unfold loadavg.
  destruct (Py.split (read e "/proc/loadavg" "")) as [|a [|b [|c rest]]].
  - repeat split; try reflexivity; intros; discriminate.
  - repeat split; try reflexivity; intros; discriminate.
  - repeat split; try reflexivity; intros; discriminate.
  - split; [|split].
    + destruct (float_of_str a); [|reflexivity].
      destruct (float_of_str b); [|reflexivity].
      destruct (float_of_str c); reflexivity.
    + simpl. lia.
    + intros a' b' c' rest' x [= <- <- <- <-] H.
      destruct (float_of_str a); [|reflexivity].
      destruct (float_of_str b); [|reflexivity].
      destruct (float_of_str c); [|reflexivity].
      destruct H as [H|[H|H]]; discriminate H.
Qed.

(** Two load averages only can be read. *)
Lemma loadavg_all_or_nothing_witness :
  loadavg odd_files = [S754_zero false; S754_zero false; S754_zero false].
Proof.
  apply (proj1 (proj2 (loadavg_all_or_nothing odd_files))).
  vm_compute. lia.
Defined.

End SystemProbes.

Section EndToEnd.
Import Agent Sampler Builtins Hosts Server.

(** X25: a payload that [collect] returns, decoded by the collector as
    the agent built it, passes the schema check and the coercions: it is
    stored under the device id with [last_seen] the agent's time stamp and
    [interval] the agent's interval, and its row can be built and shows
    what the probes returned.  [collect] itself can only raise
    [ValueError], out of [nic_stats]. *)
Theorem collected_payload_is_accepted :
  forall e1 e2 now dev interval,
    (forall payload DEVICES,
       collect e1 e2 now dev interval = Py.Ok payload ->
       let rec := {| rec_metrics := payload; rec_last_seen := now;
                     rec_interval := interval |} in
       metrics (Some payload) DEVICES
         = (Accepted, <[dev := rec]> DEVICES) /\
       forall t,
         exists r,
           build_row t dev rec = Py.Ok r /\
           row_online r = mark_online_state t now interval /\
           row_uptime_s r = Py.VFloat (Py.round (uptime_s e1) 1) /\
           row_cpu_pct r = Py.VFloat (cpu_pct e1 e2) /\
           row_mem_pct r = Py.VFloat (mem_pct e2) /\
           row_disk_pct r = Py.VInt (disk_pct e2 "/") /\
           row_loadavg r = Py.VList (map Py.VFloat (loadavg e2)) /\
           row_iface r = Py.VStr (default_iface e1) /\
           row_ip r = Py.VStr (ip_of e2 (default_iface e1)) /\
           row_mac r = Py.VStr (mac_of e2 (default_iface e1)) /\
           nic_stats e1 (default_iface e1)
             = (rb ← Py.int (row_rx_bytes r); tb ← Py.int (row_tx_bytes r);
                rp ← Py.int (row_rx_packets r); tp ← Py.int (row_tx_packets r);
                Py.Ok (rb, tb, rp, tp))) /\
    (forall x,
       collect e1 e2 now dev interval = Py.Raise x ->
       x = Py.ValueError /\
       nic_stats e1 (default_iface e1) = Py.Raise Py.ValueError).
Proof.
  intros e1 e2 now dev interval. split.
  - intros payload DEVICES H. cbn zeta. unfold collect in H.
    destruct (nic_stats e1 (default_iface e1)) as [[[[rb tb] rp] tp]|x] eqn:Hn;
      [|discriminate H].
    cbn [mbind result_bind Py.bind] in H. apply Ok_inj in H. subst payload.
    split; [reflexivity|]. intros t. eexists. split; [reflexivity|].
    repeat split; reflexivity.
  - intros x H. unfold collect in H.
    destruct (nic_stats e1 (default_iface e1)) as [[[[rb tb] rp] tp]|y] eqn:Hn;
      [discriminate H|].
    cbn [mbind result_bind Py.bind] in H. injection H as <-.
    destruct (proj2 (nic_stats_failure_modes_aux e1 (default_iface e1)) y Hn)
      as [-> _].
    auto.
Qed.

(** The sample of the typical host is accepted by an empty collector. *)
Lemma collected_payload_is_accepted_witness :
  exists payload,
    collect typical typical 1700000000 "dev-0123456789ab" 10 = Py.Ok payload /\
    metrics (Some payload) ∅
      = (Accepted,
         <["dev-0123456789ab" :=
             {| rec_metrics := payload; rec_last_seen := 1700000000;
                rec_interval := 10 |}]> ∅).
Proof.
  destruct (collect typical typical 1700000000 "dev-0123456789ab" 10)
    as [payload|x] eqn:H.
  - exists payload. split; [reflexivity|].
    apply (proj1 (collected_payload_is_accepted
                    typical typical 1700000000 "dev-0123456789ab" 10)
             payload ∅ H).
  - vm_compute in H. discriminate H.
Defined.

End EndToEnd.
